(** * Sales dashboard (app.py): KPI and aggregation pipeline

    A shallow embedding of the data path of [app.py]: ingestion
    ([load_data]), the KPI scalars, the synthetic monthly series, the
    forecast-vs-budget label and the customer rollup.

    Modelling conventions.
    - The script is embedded twice.  The main embedding reads the numeric
      operations of pandas and numpy in exact arithmetic: amounts are
      rationals [Q], equality of amounts is [Qeq] ([==]).  It fits what does
      not depend on rounding: control flow, exceptions, shapes, grouping and
      joining, bounds.  Module [Machine] embeds the same numeric steps with
      the numbers the libraries compute with, int64 that wraps and float64
      that rounds; equalities between amounts computed along different
      paths are decided there.
    - A Python scalar keeps its dynamic type ([number]): the demo branch binds
      plain Python [int]s, the real-data branch binds numpy scalars, or the
      [int] 0 for an empty column.  The two differ on division by zero, which
      the script can reach.
    - A missing spreadsheet cell (NaN) is [None].
    - What the libraries return and the script cannot influence is an input of
      the model: the outcome of [pd.read_excel] on each sheet, the unseeded
      draws of [np.random.randint], and the order in which [sort_values]
      leaves equal keys.  The draws of [np.random.rand] are not an input:
      the script seeds the generator first, and the model computes them. *)

Set Warnings "-inexact-float".
From Stdlib Require Import PrimFloat FloatOps SpecFloat Uint63.
From Stdlib Require Import String List ZArith QArith Qfield Permutation Sorted Bool Lia.
Import ListNotations.

Local Open Scope string_scope.
Local Open Scope Q_scope.

(** ** Python values *)

(** The exceptions the script can meet. *)
Inductive Exception : Type :=
| ReadFailure (msg : string)   (* anything [pd.read_excel] raises *)
| ZeroDivisionError
| TypeError
| AttributeError (msg : string)
| KeyError (label : string).

(** [str(e)], the text interpolated in the f-string of [load_data]. *)
Definition str (e : Exception) : string :=
  match e with
  | ReadFailure msg => msg
  | ZeroDivisionError => "division by zero"
  | TypeError => "'NoneType' object is not subscriptable"
  | AttributeError msg => msg
  | KeyError label => "'" ++ label ++ "'"
  end.

(** Outcome of a statement that may raise. *)
Definition result (A : Type) : Type := (Exception + A)%type.

Definition ret {A : Type} (a : A) : result A := inr a.
Definition raise {A : Type} (e : Exception) : result A := inl e.
Definition bind {A B : Type} (m : result A) (k : A -> result B) : result B :=
  match m with
  | inl e => inl e
  | inr a => k a
  end.

Notation "x <- m ;; k" := (bind m (fun x => k))
  (at level 61, m at next level, right associativity).

(** A scalar with its dynamic type: a Python [int] or a numpy scalar. *)
Inductive number : Type :=
| PyInt (n : Z)
| NpFloat (x : Q).

Definition to_Q (v : number) : Q :=
  match v with
  | PyInt n => inject_Z n
  | NpFloat x => x
  end.

(** [a + b]: [int + int] is an [int], anything else is a numpy scalar. *)
Definition add (a b : number) : number :=
  match a, b with
  | PyInt m, PyInt n => PyInt (m + n)
  | _, _ => NpFloat (to_Q a + to_Q b)
  end.

(** [a - b] with [b] a Python [int]. *)
Definition sub_int (a : number) (b : Z) : number :=
  match a with
  | PyInt m => PyInt (m - b)
  | NpFloat x => NpFloat (x - inject_Z b)
  end.

(** A float64 result: finite, infinite or NaN. *)
Inductive float : Type :=
| Finite (x : Q)
| Inf (negative : bool)
| NaN.

(** [a / b] with [b] a Python [int].  Python raises on [int / 0]; numpy
    scalars only warn and produce [inf] or [nan].  A finite quotient is
    read in exact arithmetic. *)
Definition truediv (a : number) (b : Z) : result float :=
  match a with
  | PyInt m =>
      if (b =? 0)%Z then raise ZeroDivisionError
      else ret (Finite (inject_Z m / inject_Z b))
  | NpFloat x =>
      if (b =? 0)%Z then
        match x ?= 0 with
        | Eq => ret NaN
        | Gt => ret (Inf false)
        | Lt => ret (Inf true)
        end
      else ret (Finite (x / inject_Z b))
  end.

(** [x - c] and [x * c] for a positive finite constant [c]. *)
Definition fsub (x : float) (c : Q) : float :=
  match x with
  | Finite q => Finite (q - c)
  | other => other
  end.

Definition fmul (x : float) (c : Q) : float :=
  match x with
  | Finite q => Finite (q * c)
  | other => other
  end.

(** ** Machine arithmetic

    The numeric steps of the script once more, with the numbers pandas and
    numpy compute with: int64 integers that wrap around and IEEE 754
    binary64 floats that round.  The library routines are written out as
    numpy and pandas implement them: the pairwise summation of
    [ndarray.sum], the running sum of [cumsum], the compensated summation
    of [groupby(...).sum()], and the Mersenne Twister behind
    [np.random.seed] and [np.random.rand]. *)

Module Machine.

Definition f64 : Set := PrimFloat.float.

(** *** int64 *)

(** The int64 that a two's-complement addition leaves. *)
Definition wrap64 (z : Z) : Z := ((z + 2 ^ 63) mod 2 ^ 64 - 2 ^ 63)%Z.

(** [ndarray.sum()] on an int64 array. *)
Definition int64_sum (cells : list Z) : Z :=
  fold_left (fun acc x => wrap64 (acc + x)) cells 0%Z.

(** *** float64 *)

(** An int64 converted to float64 (rounded when it has more than 53
    significant bits). *)
Definition float_of_int64 (n : Z) : f64 :=
  if (n =? - 2 ^ 63)%Z then (-9223372036854775808)%float
  else if (n <? 0)%Z then PrimFloat.opp (PrimFloat.of_uint63 (Uint63.of_Z (- n)))
  else PrimFloat.of_uint63 (Uint63.of_Z n).

(** The rational a finite float stands for. *)
Definition float_to_Q (x : f64) : option Q :=
  match Prim2SF x with
  | S754_zero _ => Some 0
  | S754_finite negative m e =>
      Some (inject_Z (if negative then Z.neg m else Z.pos m) * 2 ^ e)
  | S754_infinity _ | S754_nan => None
  end.

Definition nan_to_zero (x : f64) : f64 :=
  if PrimFloat.is_nan x then 0%float else x.

(** numpy's pairwise summation of a contiguous float64 array: a plain
    loop below eight elements, eight running accumulators up to 128
    elements, two halves above. *)
Fixpoint add_blocks (r a : list f64) (blocks : nat) : list f64 * list f64 :=
  match blocks with
  | O => (r, a)
  | S blocks' =>
      add_blocks (map (fun p => PrimFloat.add (fst p) (snd p))
                      (combine r (firstn 8 a)))
                 (skipn 8 a) blocks'
  end.

Definition sum_unrolled (a : list f64) : f64 :=
  let n := length a in
  let (r, rest) := add_blocks (firstn 8 a) (skipn 8 a) ((n - n mod 8) / 8 - 1) in
  let r := fun j => nth j r 0%float in
  fold_left PrimFloat.add rest
    ((r 0%nat + r 1%nat + (r 2%nat + r 3%nat)
      + (r 4%nat + r 5%nat + (r 6%nat + r 7%nat)))%float).

Fixpoint pairwise_sum_rec (depth : nat) (a : list f64) : f64 :=
  let n := length a in
  if (n <? 8)%nat then fold_left PrimFloat.add a 0%float
  else if (n <=? 128)%nat then sum_unrolled a
  else
    match depth with
    | O => sum_unrolled a
    | S depth' =>
        let n2 := (n / 2 - (n / 2) mod 8)%nat in
        PrimFloat.add (pairwise_sum_rec depth' (firstn n2 a))
                      (pairwise_sum_rec depth' (skipn n2 a))
    end.

(** [ndarray.sum()] on a float64 array (the halving ends well within
    [length a] steps). *)
Definition pairwise_sum (a : list f64) : f64 :=
  pairwise_sum_rec (length a) a.

(** [Series.cumsum()]: pandas runs [np.cumsum] with the NaN cells set to
    zero, then puts NaN back in their places. *)
Fixpoint cumsum_from (acc : f64) (cells : list f64) : list f64 :=
  match cells with
  | [] => []
  | x :: rest =>
      let acc := PrimFloat.add acc (nan_to_zero x) in
      (if PrimFloat.is_nan x then x else acc) :: cumsum_from acc rest
  end.

Definition cumsum (cells : list f64) : list f64 :=
  match cells with
  | [] => []
  | x :: rest => x :: cumsum_from (nan_to_zero x) rest
  end.

(** The sum of one group in [groupby(...).sum()]: pandas' [group_sum]
    adds the non-NaN cells with Kahan's compensation. *)
Fixpoint group_sum_from (sumx compensation : f64) (cells : list f64) : f64 :=
  match cells with
  | [] => sumx
  | val :: rest =>
      if PrimFloat.is_nan val then group_sum_from sumx compensation rest
      else
        let y := PrimFloat.sub val compensation in
        let t := PrimFloat.add sumx y in
        let c := PrimFloat.sub (PrimFloat.sub t sumx) y in
        group_sum_from t (if PrimFloat.is_nan c then 0%float else c) rest
  end.

Definition group_sum (cells : list f64) : f64 :=
  group_sum_from 0%float 0%float cells.

(** *** Columns and scalars *)

(** A numeric column as [read_excel] types it: int64 when every cell is
    an integer, float64 otherwise, and an empty object column for a sheet
    with a header only. *)
Inductive Series : Type :=
| Int64Column (cells : list Z)
| Float64Column (cells : list f64)
| EmptyColumn.

(** A scalar with its dynamic type. *)
Inductive scalar : Type :=
| PyInt (n : Z)
| NpInt64 (n : Z)
| NpFloat64 (x : f64).

(** [Series.sum()], NaN skipped. *)
Definition Series_sum (column : Series) : scalar :=
  match column with
  | Int64Column cells => NpInt64 (int64_sum cells)
  | Float64Column cells => NpFloat64 (pairwise_sum (map nan_to_zero cells))
  | EmptyColumn => PyInt 0
  end.

Definition to_float64 (v : scalar) : f64 :=
  match v with
  | PyInt n | NpInt64 n => float_of_int64 n
  | NpFloat64 x => x
  end.

(** [a + b] on two of these scalars. *)
Definition add (a b : scalar) : scalar :=
  match a, b with
  | PyInt m, PyInt n => PyInt (m + n)
  | NpFloat64 _, _ | _, NpFloat64 _ =>
      NpFloat64 (PrimFloat.add (to_float64 a) (to_float64 b))
  | NpInt64 m, (PyInt n | NpInt64 n) | PyInt m, NpInt64 n =>
      NpInt64 (wrap64 (m + n))
  end.

(** *** The generator *)

Definition u32 (z : Z) : Z := Z.land z 0xffffffff.

(** [np.random.seed(seed)]: the 624 words of the key. *)
Fixpoint mt19937_seed_from (seed : Z) (pos n : nat) : list Z :=
  match n with
  | O => []
  | S n' =>
      seed :: mt19937_seed_from
                (u32 (1812433253 * Z.lxor seed (Z.shiftr seed 30)
                      + Z.of_nat pos + 1))
                (S pos) n'
  end.

Definition mt19937_seed (seed : Z) : list Z :=
  mt19937_seed_from (u32 seed) 0 624.

(** Word [kk] of the regenerated key, for [kk < 227]: these words depend
    on the seeded key only, and [rand(11)] reads the first 22 of them. *)
Definition mt19937_gen_word (key : list Z) (kk : nat) : Z :=
  let y := Z.lor (Z.land (nth kk key 0%Z) 0x80000000)
                 (Z.land (nth (kk + 1) key 0%Z) 0x7fffffff) in
  Z.lxor (Z.lxor (nth (kk + 397) key 0%Z) (Z.shiftr y 1))
         (if Z.odd y then 0x9908b0df%Z else 0%Z).

Definition temper (y : Z) : Z :=
  let y := Z.lxor y (Z.shiftr y 11) in
  let y := Z.lxor y (Z.land (Z.shiftl y 7) 0x9d2c5680) in
  let y := Z.lxor y (Z.land (Z.shiftl y 15) 0xefc60000) in
  u32 (Z.lxor y (Z.shiftr y 18)).

Definition mt19937_next (key : list Z) (pos : nat) : Z :=
  temper (mt19937_gen_word key pos).

(** The two integers of draw [i], 27 and 26 bits. *)
Definition random_bits (key : list Z) (i : nat) : Z * Z :=
  (Z.shiftr (mt19937_next key (2 * i)) 5,
   Z.shiftr (mt19937_next key (2 * i + 1)) 6).

(** Draw [i] as a double: [(a * 67108864.0 + b) / 9007199254740992.0]. *)
Definition random_sample (key : list Z) (i : nat) : f64 :=
  let (a, b) := random_bits key i in
  ((float_of_int64 a * 67108864 + float_of_int64 b) / 9007199254740992)%float.

(** [np.random.seed(42)] followed by [np.random.rand(size)],
    [size <= 113]. *)
Definition rand (size : nat) : list f64 :=
  map (random_sample (mt19937_seed 42)) (seq 0 size).

(** The same draws as exact rationals. *)
Definition rand_exact (i : nat) : Q :=
  let (a, b) := random_bits (mt19937_seed 42) i in
  inject_Z (a * 67108864 + b) / 9007199254740992.

(** *** Lines 77 to 83 and 117 *)

(** [weights / weights.sum()]. *)
Definition normalize (weights : list f64) : list f64 :=
  let total := pairwise_sum weights in
  map (fun w => PrimFloat.div w total) weights.

(** [monthly_vals], after [np.append(monthly_vals, 0)]. *)
Definition monthly_vals (turnover_val : scalar) : list f64 :=
  (map (fun w => PrimFloat.mul w (to_float64 turnover_val))
       (normalize (rand 11))
   ++ [0%float])%list.

(** The column [Cumulativo_Fatturato]. *)
Definition Cumulativo_Fatturato (turnover_val : scalar) : list f64 :=
  cumsum (monthly_vals turnover_val).

End Machine.

(** ** Data model *)

Module TurnoverRecord.
Record t : Type := mk {
  Customer : option string;
  Turnover : Q;
  Margin : Q
}.
End TurnoverRecord.

Module PortfolioRecord.
Record t : Type := mk {
  Customer : option string;
  Net_amount : Q
}.
End PortfolioRecord.

Module CustomerRollup.
Record t : Type := mk {
  Customer : string;
  Turnover : Q;
  Margin : Q;
  Portfolio : Q;
  Totale : Q
}.
End CustomerRollup.

(** The chart frame, column by column; row [i] is the monthly point of
    month [i + 1]. *)
Module MonthlyPoints.
Record t : Type := mk {
  Mese : list string;
  Fatturato : list Q;
  Budget : list Q;
  Cumulativo_Fatturato : list Q;
  Cumulativo_Budget : list Q
}.
End MonthlyPoints.

(** The two frames, for sheets that hold the columns the script indexes
    (a sheet that lacks one is a [RawFrame] below, on which indexing
    raises [KeyError]). *)
Definition TurnoverFrame : Type := list TurnoverRecord.t.
Definition PortfolioFrame : Type := list PortfolioRecord.t.

(** ** Ingestion *)

(** An uploaded file, seen through the two calls the script makes on it:
    what [pd.read_excel(file, sheet_name=...)] does for each sheet.
    [load_data] hands the frames on without looking into them, so the
    record is generic in what a frame is. *)
Record Upload (T P : Type) : Type := {
  read_Source_Turnover : result T;
  read_Source_Portfolio : result P
}.

Arguments read_Source_Turnover {T P}.
Arguments read_Source_Portfolio {T P}.

(** An upload whose sheets, when read, have the columns the script
    indexes. *)
Definition UploadedFile : Type := Upload TurnoverFrame PortfolioFrame.

(** What the script shows through Streamlit. *)
Inductive Ui : Type :=
| st_error (msg : string)
| st_warning (msg : string).

Definition read_error_message (e : Exception) : string :=
  "Errore nella lettura del file: " ++ str e
  ++ ". Assicurati di usare il file Excel corretto.".

(** [load_data]: the messages shown and the pair returned. *)
Definition load_data {T P : Type} (uploaded_file : option (Upload T P))
  : list Ui * (option T * option P) :=
  match uploaded_file with
  | Some file =>
      match (df_turnover <- read_Source_Turnover file ;;
             df_portfolio <- read_Source_Portfolio file ;;
             ret (df_turnover, df_portfolio)) with
      | inr (df_turnover, df_portfolio) =>
          ([], (Some df_turnover, Some df_portfolio))
      | inl e => ([st_error (read_error_message e)], (None, None))
      end
  | None => ([], (None, None))
  end.

(** ** KPI computation *)

(** [Series.sum()], read in exact arithmetic. *)
Definition sumQ (l : list Q) : Q := fold_right Qplus 0 l.

(** [Series.cumsum()], read in exact arithmetic. *)
Fixpoint cumsum_from (acc : Q) (l : list Q) : list Q :=
  match l with
  | [] => []
  | x :: rest => (acc + x) :: cumsum_from (acc + x) rest
  end.

Definition cumsum (l : list Q) : list Q := cumsum_from 0 l.

Definition months : list string :=
  ["Gen"; "Feb"; "Mar"; "Apr"; "Mag"; "Giu";
   "Lug"; "Ago"; "Set"; "Ott"; "Nov"; "Dic"].

(** The draws of [np.random.randint(50000, 200000, 11)] in the demo
    branch, by position: nothing seeds the generator there. *)
Record Rng : Type := {
  randint : nat -> Z
}.

(** An array of [size] draws. *)
Definition draw {A : Type} (generator : nat -> A) (size : nat) : list A :=
  map generator (seq 0 size).

(** [weights / weights.sum()], read in exact arithmetic. *)
Definition normalize (weights : list Q) : list Q :=
  map (fun w => w / sumQ weights) weights.

(** [monthly_vals]: the normalized weights times [turnover_val], then a
    zero appended for December. *)
Definition monthly_vals (weights : list Q) (turnover_val : Q) : list Q :=
  map (fun w => w * turnover_val) (normalize weights) ++ [0].

(** The demo series: the integer draws, then a zero for December. *)
Definition demo_values (draws : list Z) : list Q :=
  map inject_Z draws ++ [0].

Arguments draw : simpl never.
Arguments normalize : simpl never.
Arguments monthly_vals : simpl never.
Arguments demo_values : simpl never.

(** [Series.sum()] as the script binds it: a header-only sheet gives an
    empty object column, whose sum is the Python [int] 0; any other column
    gives a numpy scalar. *)
Definition Series_sum (cells : list Q) : number :=
  match cells with
  | [] => PyInt 0
  | _ :: _ => NpFloat (sumQ cells)
  end.

Record Kpi : Type := {
  turnover_val : number;
  portfolio_val : number;
  df_chart : list string * list Q;   (* columns Mese, Fatturato *)
  total_forecast : number;
  budget_mensile : Q;
  delta_budget : number
}.

(** Sections 1 and 2 of the main script, from the pair returned by
    [load_data] to the KPI scalars.  In the real-data branch the weights
    are the draws that follow [np.random.seed(42)]. *)
Definition kpi (rng : Rng) (budget_annuale : Z)
    (loaded : option TurnoverFrame * option PortfolioFrame)
  : list Ui * result Kpi :=
  let finish (turnover_val portfolio_val : number) (values : list Q) :=
    let total_forecast := add turnover_val portfolio_val in
    {| turnover_val := turnover_val;
       portfolio_val := portfolio_val;
       df_chart := (months, values);
       total_forecast := total_forecast;
       budget_mensile := inject_Z budget_annuale / 12;
       delta_budget := sub_int total_forecast budget_annuale |} in
  match loaded with
  | (None, _) =>
      ([st_warning
          "In attesa di file. Carico dati di esempio per la visualizzazione."],
       ret (finish (PyInt 1530000) (PyInt 450000)
                   (demo_values (draw (randint rng) 11))))
  | (Some df_turnover, Some df_portfolio) =>
      let turnover_val :=
        sumQ (map TurnoverRecord.Turnover df_turnover) in
      ([], ret (finish (Series_sum
                          (map TurnoverRecord.Turnover df_turnover))
                       (Series_sum
                          (map PortfolioRecord.Net_amount df_portfolio))
                       (monthly_vals (draw Machine.rand_exact 11)
                                     turnover_val)))
  | (Some _, None) => ([], raise TypeError)
  end.

(** The delta of the third metric card:
    [((total_forecast/budget_annuale)-1)*100]. *)
Definition percent_vs_budget (total_forecast : number) (budget_annuale : Z)
  : result float :=
  ratio <- truediv total_forecast budget_annuale ;;
  ret (fmul (fsub ratio 1) 100).

(** The chart frame with its three derived columns: the scalar
    [budget_mensile] broadcast over the rows, and the two running sums. *)
Definition chart (k : Kpi) : MonthlyPoints.t :=
  let (mese, fatturato) := df_chart k in
  let budget := map (fun _ => budget_mensile k) mese in
  {| MonthlyPoints.Mese := mese;
     MonthlyPoints.Fatturato := fatturato;
     MonthlyPoints.Budget := budget;
     MonthlyPoints.Cumulativo_Fatturato := cumsum fatturato;
     MonthlyPoints.Cumulativo_Budget := cumsum budget |}.

(** ** Customer rollup *)

(** Group keys in the order [groupby] and [merge(how='outer')] give them:
    distinct and sorted lexicographically.  Rows whose key is missing
    belong to no group. *)
Fixpoint insert_key (k : string) (l : list string) : list string :=
  match l with
  | [] => [k]
  | k' :: rest =>
      if String.leb k k' then k :: l else k' :: insert_key k rest
  end.

Definition sort_keys (l : list string) : list string :=
  fold_right insert_key [] l.

Fixpoint dropna (l : list (option string)) : list string :=
  match l with
  | [] => []
  | Some k :: rest => k :: dropna rest
  | None :: rest => dropna rest
  end.

Definition group_keys (column : list (option string)) : list string :=
  sort_keys (nodup string_dec (dropna column)).

Definition has_key (k : string) (c : option string) : bool :=
  match c with
  | Some k' => String.eqb k k'
  | None => false
  end.

(** [df_turnover.groupby('Customer')[['Turnover', 'Margin']].sum()
    .reset_index()]: rows (Customer, (Turnover, Margin)). *)
Definition cust_sales (df_turnover : TurnoverFrame)
  : list (string * (Q * Q)) :=
  map (fun k =>
         let group :=
           filter (fun r => has_key k (TurnoverRecord.Customer r))
                  df_turnover in
         (k, (sumQ (map TurnoverRecord.Turnover group),
              sumQ (map TurnoverRecord.Margin group))))
      (group_keys (map TurnoverRecord.Customer df_turnover)).

(** [df_portfolio.groupby('Customer')[['Net amount']].sum()
    .rename(columns={'Net amount': 'Portfolio'}).reset_index()]. *)
Definition cust_portfolio (df_portfolio : PortfolioFrame)
  : list (string * Q) :=
  map (fun k =>
         let group :=
           filter (fun r => has_key k (PortfolioRecord.Customer r))
                  df_portfolio in
         (k, sumQ (map PortfolioRecord.Net_amount group)))
      (group_keys (map PortfolioRecord.Customer df_portfolio)).

Fixpoint lookup {V : Type} (k : string) (l : list (string * V)) : option V :=
  match l with
  | [] => None
  | (k', v) :: rest => if String.eqb k k' then Some v else lookup k rest
  end.

(** A row of [pd.merge(..., on='Customer', how='outer')], before
    [fillna]: the side that lacks the key holds NaN. *)
Record Joined : Type := {
  j_Customer : string;
  j_Turnover : option Q;
  j_Margin : option Q;
  j_Portfolio : option Q
}.

(** The outer join of two frames that hold each key at most once (both
    operands come out of a [groupby]): one row per key of either side. *)
Definition merge_outer (left : list (string * (Q * Q)))
    (right : list (string * Q)) : list Joined :=
  map (fun k =>
         {| j_Customer := k;
            j_Turnover := option_map fst (lookup k left);
            j_Margin := option_map snd (lookup k left);
            j_Portfolio := lookup k right |})
      (sort_keys (nodup string_dec (map fst left ++ map fst right))).

(** [.fillna(0)] on one cell. *)
Definition fillna0 (cell : option Q) : Q :=
  match cell with
  | Some x => x
  | None => 0
  end.

(** [merged], with its [Totale] column. *)
Definition merged (df_turnover : TurnoverFrame) (df_portfolio : PortfolioFrame)
  : list CustomerRollup.t :=
  map (fun j =>
         let turnover := fillna0 (j_Turnover j) in
         let portfolio := fillna0 (j_Portfolio j) in
         CustomerRollup.mk (j_Customer j) turnover (fillna0 (j_Margin j))
                           portfolio (turnover + portfolio))
      (merge_outer (cust_sales df_turnover) (cust_portfolio df_portfolio)).

Arguments merged : simpl never.

(** Non-increasing [Totale] along a frame. *)
Definition descending (a b : CustomerRollup.t) : Prop :=
  CustomerRollup.Totale b <= CustomerRollup.Totale a.

(** [df.sort_values('Totale', ascending=False)].  The call leaves [kind] at
    its default, which pandas documents as not stable: the result is some
    rearrangement of the rows with [Totale] non-increasing, and the order
    among equal [Totale] is the library's choice.  This contract is sound
    for what holds of every such rearrangement; one sort routine is
    written out in [MachineRollup]. *)
Definition sort_values (df sorted : list CustomerRollup.t) : Prop :=
  Permutation df sorted /\ StronglySorted descending sorted.

(** [top_10 = merged.sort_values('Totale', ascending=False).head(10)]. *)
Definition top_10 (df out : list CustomerRollup.t) : Prop :=
  exists sorted, sort_values df sorted /\ out = firstn 10 sorted.

(** One admissible [sort_values]: the stable insertion sort. *)
Fixpoint insert_desc (x : CustomerRollup.t) (l : list CustomerRollup.t)
  : list CustomerRollup.t :=
  match l with
  | [] => [x]
  | y :: rest =>
      if Qle_bool (CustomerRollup.Totale y) (CustomerRollup.Totale x)
      then x :: l
      else y :: insert_desc x rest
  end.

Definition stable_sort_desc (df : list CustomerRollup.t)
  : list CustomerRollup.t :=
  fold_right insert_desc [] df.

(** ** Sheets as read

    [pd.read_excel] returns whatever columns the sheet has; the script
    finds out by indexing. *)

Inductive Cell : Type :=
| Text (s : string)
| Number (x : Q)
| Blank.

(** A frame as read: the labels of the header row, each with its cells. *)
Definition RawFrame : Type := list (string * list Cell).

Definition RawUpload : Type := Upload RawFrame RawFrame.

(** [df[label]]: the column, or [KeyError] for a label the frame lacks. *)
Definition getitem (df : RawFrame) (label : string) : result (list Cell) :=
  match lookup label df with
  | Some column => ret column
  | None => raise (KeyError label)
  end.

(** Lines 70 and 71, the first statements that look into the frames:
    [df_turnover['Turnover']], then [df_portfolio['Net amount']]. *)
Definition kpi_columns (df_turnover df_portfolio : RawFrame)
  : result (list Cell * list Cell) :=
  turnover <- getitem df_turnover "Turnover" ;;
  net_amount <- getitem df_portfolio "Net amount" ;;
  ret (turnover, net_amount).

(** The sheets that typed frames stand for. *)
Definition customer_cell (c : option string) : Cell :=
  match c with
  | Some k => Text k
  | None => Blank
  end.

Definition turnover_sheet (df_turnover : TurnoverFrame) : RawFrame :=
  [("Customer",
    map (fun r => customer_cell (TurnoverRecord.Customer r)) df_turnover);
   ("Turnover", map (fun r => Number (TurnoverRecord.Turnover r)) df_turnover);
   ("Margin", map (fun r => Number (TurnoverRecord.Margin r)) df_turnover)].

Definition portfolio_sheet (df_portfolio : PortfolioFrame) : RawFrame :=
  [("Customer",
    map (fun r => customer_cell (PortfolioRecord.Customer r)) df_portfolio);
   ("Net amount",
    map (fun r => Number (PortfolioRecord.Net_amount r)) df_portfolio)].

(** ** The rollup in machine arithmetic

    Lines 169 to 173 on sheets whose amounts are float64 columns: the
    group sums are compensated float sums, [Totale] is a float addition. *)

Module MachineRollup.

(** The rows of the two sheets and of the merged frame. *)
Record TurnoverRow : Type := {
  t_Customer : option string;
  t_Turnover : Machine.f64;
  t_Margin : Machine.f64
}.

Record PortfolioRow : Type := {
  p_Customer : option string;
  p_Net_amount : Machine.f64
}.

Record RollupRow : Type := {
  Customer : string;
  Turnover : Machine.f64;
  Margin : Machine.f64;
  Portfolio : Machine.f64;
  Totale : Machine.f64
}.

(** Lines 169 and 170: the group sums per customer. *)
Definition cust_sales (df_turnover : list TurnoverRow)
  : list (string * (Machine.f64 * Machine.f64)) :=
  map (fun k =>
         let group :=
           filter (fun r => has_key k (t_Customer r)) df_turnover in
         (k, (Machine.group_sum (map t_Turnover group),
              Machine.group_sum (map t_Margin group))))
      (group_keys (map t_Customer df_turnover)).

Definition cust_portfolio (df_portfolio : list PortfolioRow)
  : list (string * Machine.f64) :=
  map (fun k =>
         (k, Machine.group_sum
               (map p_Net_amount
                    (filter (fun r => has_key k (p_Customer r))
                            df_portfolio))))
      (group_keys (map p_Customer df_portfolio)).

(** [.fillna(0)] on one cell of the joined frame. *)
Definition fillna0 (cell : option Machine.f64) : Machine.f64 :=
  match cell with
  | Some x => Machine.nan_to_zero x
  | None => 0%float
  end.

(** Lines 172 and 173: the outer join on the sorted keys of either side,
    the zero fill, and the [Totale] column. *)
Definition merged (df_turnover : list TurnoverRow)
    (df_portfolio : list PortfolioRow) : list RollupRow :=
  let sales := cust_sales df_turnover in
  let backlog := cust_portfolio df_portfolio in
  map (fun k =>
         let turnover := fillna0 (option_map fst (lookup k sales)) in
         let portfolio := fillna0 (lookup k backlog) in
         {| Customer := k;
            Turnover := turnover;
            Margin := fillna0 (option_map snd (lookup k sales));
            Portfolio := portfolio;
            Totale := PrimFloat.add turnover portfolio |})
      (sort_keys (nodup string_dec (map fst sales ++ map fst backlog))).

(** [DataFrame.sort_values('Totale', ascending=False)] leaves [kind] at its
    default, ['quicksort'], and pandas hands the column to numpy's
    [argsort].  What follows is numpy's routine for that kind as it runs
    where no vectorised sort takes over ([aquicksort] in
    [npysort/quicksort.cpp]): median-of-three partitions while a range
    holds more than 17 cells, insertion sort below.  It works on an array
    of positions [tosort]; [v] is the column. *)

Definition less (a b : Machine.f64) : bool :=
  PrimFloat.ltb a b || (PrimFloat.is_nan b && negb (PrimFloat.is_nan a)).

Fixpoint update (i : nat) (x : nat) (l : list nat) : list nat :=
  match l, i with
  | [], _ => []
  | _ :: rest, O => x :: rest
  | y :: rest, S i' => y :: update i' x rest
  end.

(** [INTP_SWAP(tosort[i], tosort[j])]. *)
Definition swap (i j : nat) (tosort : list nat) : list nat :=
  update j (nth i tosort 0%nat) (update i (nth j tosort 0%nat) tosort).

Definition SMALL_QUICKSORT : nat := 16.

Section Argsort.

Variable v : list Machine.f64.

Definition at_ (tosort : list nat) (p : nat) : Machine.f64 :=
  nth (nth p tosort 0%nat) v 0%float.

(** [do ++pi; while (v[*pi] < vp)]. *)
Fixpoint scan_up (fuel : nat) (vp : Machine.f64) (tosort : list nat)
    (pi : nat) : nat :=
  match fuel with
  | O => S pi
  | S fuel' =>
      if less (at_ tosort (S pi)) vp then scan_up fuel' vp tosort (S pi)
      else S pi
  end.

(** [do --pj; while (vp < v[*pj])]. *)
Fixpoint scan_down (fuel : nat) (vp : Machine.f64) (tosort : list nat)
    (pj : nat) : nat :=
  match fuel with
  | O => (pj - 1)%nat
  | S fuel' =>
      if less vp (at_ tosort (pj - 1)) then scan_down fuel' vp tosort (pj - 1)
      else (pj - 1)%nat
  end.

(** The [for (;;)] loop of the partition: the array and the final [pi]. *)
Fixpoint partition (fuel : nat) (vp : Machine.f64) (tosort : list nat)
    (pi pj : nat) : list nat * nat :=
  match fuel with
  | O => (tosort, pi)
  | S fuel' =>
      let pi := scan_up (length tosort) vp tosort pi in
      let pj := scan_down (length tosort) vp tosort pj in
      if (pj <=? pi)%nat then (tosort, pi)
      else partition fuel' vp (swap pi pj tosort) pi pj
  end.

(** The inner [while (pj > pl && vp < v[*pk])] of the insertion sort:
    the cells above the place of [vi] move up by one. *)
Fixpoint shift_up (fuel : nat) (vp : Machine.f64) (pl : nat)
    (tosort : list nat) (pj : nat) : list nat * nat :=
  match fuel with
  | O => (tosort, pj)
  | S fuel' =>
      if ((pl <? pj)%nat && less vp (at_ tosort (pj - 1)))%bool
      then shift_up fuel' vp pl
             (update pj (nth (pj - 1) tosort 0%nat) tosort) (pj - 1)
      else (tosort, pj)
  end.

(** The insertion sort of the cells [pl .. pr], from [pi] on. *)
Fixpoint insertion_sort (count : nat) (pl pi : nat) (tosort : list nat)
  : list nat :=
  match count with
  | O => tosort
  | S count' =>
      let vi := nth pi tosort 0%nat in
      let (shifted, pj) :=
        shift_up (length tosort) (nth vi v 0%float) pl tosort pi in
      insertion_sort count' pl (S pi) (update pj vi shifted)
  end.

(** The body of [while (1)].  [partitioning] tells the inner [while] loop
    from the top of the outer one, where alone the depth limit is looked
    at.  A range that exhausts the depth limit goes to heapsort in numpy;
    that routine is left out, and the result is [None] there. *)
Fixpoint aquicksort_loop (fuel : nat) (partitioning : bool)
    (tosort : list nat) (pl pr : nat) (stack : list (nat * nat))
    (cdepth : Z) (depth : list Z) : option (list nat) :=
  match fuel with
  | O => None
  | S fuel' =>
      if (negb partitioning && (cdepth <? 0)%Z)%bool then None
      else if (SMALL_QUICKSORT <? pr - pl)%nat then
        let pm := (pl + (pr - pl) / 2)%nat in
        let tosort :=
          if less (at_ tosort pm) (at_ tosort pl) then swap pm pl tosort
          else tosort in
        let tosort :=
          if less (at_ tosort pr) (at_ tosort pm) then swap pr pm tosort
          else tosort in
        let tosort :=
          if less (at_ tosort pm) (at_ tosort pl) then swap pm pl tosort
          else tosort in
        let vp := at_ tosort pm in
        let tosort := swap pm (pr - 1) tosort in
        let (tosort, pi) :=
          partition (length tosort) vp tosort pl (pr - 1) in
        let tosort := swap pi (pr - 1) tosort in
        if (pi - pl <? pr - pi)%nat then
          aquicksort_loop fuel' true tosort pl (pi - 1)
                          ((S pi, pr) :: stack)
                          (cdepth - 1) ((cdepth - 1)%Z :: depth)
        else
          aquicksort_loop fuel' true tosort (S pi) pr
                          ((pl, (pi - 1)%nat) :: stack)
                          (cdepth - 1) ((cdepth - 1)%Z :: depth)
      else
        let tosort := insertion_sort (pr - pl) pl (S pl) tosort in
        match stack, depth with
        | (pl', pr') :: stack', cdepth' :: depth' =>
            aquicksort_loop fuel' false tosort pl' pr' stack' cdepth' depth'
        | _, _ => Some tosort
        end
  end.

(** [v.argsort(kind='quicksort')]. *)
Definition argsort : option (list nat) :=
  let num := length v in
  aquicksort_loop (2 * num + 1) false (seq 0 num) 0 (num - 1) []
                  (2 * Z.log2 (Z.of_nat num)) [].

End Argsort.

(** pandas' [nargsort] for [ascending=False, na_position='last']: the
    cells that are not NaN are reversed, sorted ascending, and the result
    reversed; the NaN cells follow. *)
Definition nargsort (items : list Machine.f64) : option (list nat) :=
  let idx := seq 0 (length items) in
  let is_na := fun i => PrimFloat.is_nan (nth i items 0%float) in
  let non_nan_idx := rev (filter (fun i => negb (is_na i)) idx) in
  let non_nans := map (fun i => nth i items 0%float) non_nan_idx in
  option_map
    (fun sorted =>
       (rev (map (fun i => nth i non_nan_idx 0%nat) sorted)
        ++ filter is_na idx)%list)
    (argsort non_nans).

(** [df.iloc[indexer]]. *)
Definition take {A : Type} (df : list A) (indexer : list nat) : list A :=
  flat_map (fun i => match nth_error df i with
                     | Some row => [row]
                     | None => []
                     end) indexer.

(** [top_10 = merged.sort_values('Totale', ascending=False).head(10)]. *)
Definition top_10 (df_turnover : list TurnoverRow)
    (df_portfolio : list PortfolioRow) : option (list RollupRow) :=
  let df := merged df_turnover df_portfolio in
  option_map (fun indexer => firstn 10 (take df indexer))
             (nargsort (map Totale df)).

(** A stable descending sort of the same frame, for comparison: rows with
    equal [Totale] stay in the order of the merged frame. *)
Fixpoint insert_desc (x : RollupRow) (l : list RollupRow) : list RollupRow :=
  match l with
  | [] => [x]
  | y :: rest =>
      if PrimFloat.leb (Totale y) (Totale x) then x :: l
      else y :: insert_desc x rest
  end.

Definition stable_sort_desc (df : list RollupRow) : list RollupRow :=
  fold_right insert_desc [] df.

(** Lines 70 and 71 on the same sheets. *)
Definition turnover_val (df_turnover : list TurnoverRow) : Machine.scalar :=
  Machine.Series_sum (Machine.Float64Column (map t_Turnover df_turnover)).

Definition portfolio_val (df_portfolio : list PortfolioRow)
  : Machine.scalar :=
  Machine.Series_sum (Machine.Float64Column (map p_Net_amount df_portfolio)).

(** [merged['Totale'].sum()]. *)
Definition Totale_sum (df_turnover : list TurnoverRow)
    (df_portfolio : list PortfolioRow) : Machine.scalar :=
  Machine.Series_sum
    (Machine.Float64Column (map Totale (merged df_turnover df_portfolio))).

End MachineRollup.

(** ** The script *)

Record Dashboard : Type := {
  kpis : Kpi;
  delta_vs_budget : float;
  chart_frame : MonthlyPoints.t;
  raw_table : option (list CustomerRollup.t)
}.

(** Section 3 of the script, guarded by [if df_turnover is not None]. *)
Definition rollup (loaded : option TurnoverFrame * option PortfolioFrame)
  : result (option (list CustomerRollup.t)) :=
  match loaded with
  | (None, _) => ret None
  | (Some df_turnover, Some df_portfolio) =>
      ret (Some (merged df_turnover df_portfolio))
  | (Some _, None) =>
      raise (AttributeError "'NoneType' object has no attribute 'groupby'")
  end.

(** Line 158, [px.donut(...)]: [plotly.express] has no attribute
    [donut] (its pie chart is [px.pie]), so evaluating the call raises. *)
Definition px_donut : result unit :=
  raise (AttributeError "module 'plotly.express' has no attribute 'donut'").

(** One run of the script: the messages Streamlit has shown, and either
    the values handed to the widgets or the exception that stopped the
    run.  The steps that can raise are kept in the order of the script: the
    KPI section, the delta of line 103, the call of line 158, the rollup
    section. *)
Definition dashboard (rng : Rng) (budget_annuale : Z)
    (uploaded_file : option UploadedFile) : list Ui * result Dashboard :=
  let (shown, loaded) := load_data uploaded_file in
  let (shown', k) := kpi rng budget_annuale loaded in
  ((shown ++ shown')%list,
   k <- k ;;
   delta <- percent_vs_budget (total_forecast k) budget_annuale ;;
   _ <- px_donut ;;
   table <- rollup loaded ;;
   ret {| kpis := k;
          delta_vs_budget := delta;
          chart_frame := chart k;
          raw_table := table |}).

(** ** Auxiliary definitions and sample inputs *)

(** The script after the call of [load_data]: the value part of
    [dashboard], as a function of the pair [load_data] returned. *)
Definition render (rng : Rng) (budget_annuale : Z)
    (loaded : option TurnoverFrame * option PortfolioFrame)
  : result Dashboard :=
  k <- snd (kpi rng budget_annuale loaded) ;;
  delta <- percent_vs_budget (total_forecast k) budget_annuale ;;
  _ <- px_donut ;;
  table <- rollup loaded ;;
  ret {| kpis := k;
         delta_vs_budget := delta;
         chart_frame := chart k;
         raw_table := table |}.

(** The demo warning of the script, with the text the KPI stage gives it
    (the leading warning sign of the source string is left out). *)
Definition demo_warning : Ui :=
  st_warning
    "In attesa di file. Carico dati di esempio per la visualizzazione.".

(** A file whose second read fails after the first succeeded. *)
Definition truncated_file : UploadedFile :=
  {| read_Source_Turnover :=
       ret [TurnoverRecord.mk (Some "A") 100 10];
     read_Source_Portfolio :=
       raise (ReadFailure "Worksheet named 'Source_Portfolio' not found") |}.

(** A file that parses into the sheets of the worked example. *)
Definition example_file : UploadedFile :=
  {| read_Source_Turnover :=
       ret [TurnoverRecord.mk (Some "A") 100 10;
            TurnoverRecord.mk (Some "B") 200 20];
     read_Source_Portfolio :=
       ret [PortfolioRecord.mk (Some "A") 50;
            PortfolioRecord.mk (Some "C") 30] |}.

(** The rows that carry a customer key, the ones [groupby] keeps. *)
Definition with_key {A : Type} (key : A -> option string) (rows : list A)
  : list A :=
  filter (fun r => match key r with Some _ => true | None => false end) rows.

(** A turnover sheet with one row that has no customer. *)
Definition unkeyed_turnover : TurnoverFrame :=
  [TurnoverRecord.mk (Some "A") 100 10; TurnoverRecord.mk None 40 4].

(** A workbook without the first sheet. *)
Definition missing_sheet_file : UploadedFile :=
  {| read_Source_Turnover :=
       raise (ReadFailure "Worksheet named 'Source_Turnover' not found");
     read_Source_Portfolio := ret [] |}.

(** Sample draws: integers in the demo range. *)
Definition sample_rng : Rng :=
  {| randint := fun i =>
       nth i [120000; 75000; 180000; 61000; 99000; 150000;
              52000; 133000; 171000; 88000; 114000]%Z 50000%Z |}.

(** The keys of the merged frame: each key of either sheet, once. *)
Definition merged_keys (df_turnover : TurnoverFrame)
    (df_portfolio : PortfolioFrame) : list string :=
  sort_keys
    (nodup string_dec
       (group_keys (map TurnoverRecord.Customer df_turnover)
        ++ group_keys (map PortfolioRecord.Customer df_portfolio))).

(** The row of [merged] for one key. *)
Definition merged_row (df_turnover : TurnoverFrame)
    (df_portfolio : PortfolioFrame) (k : string) : CustomerRollup.t :=
  let sales := lookup k (cust_sales df_turnover) in
  let turnover := fillna0 (option_map fst sales) in
  let portfolio := fillna0 (lookup k (cust_portfolio df_portfolio)) in
  CustomerRollup.mk k turnover (fillna0 (option_map snd sales))
                    portfolio (turnover + portfolio).

(** Every row carries a customer key. *)
Definition keyed {A : Type} (key : A -> option string) (rows : list A)
  : Prop :=
  Forall (fun r => key r <> None) rows.

(** The sheets of the worked example: turnover rows (A, 100, 10) and
    (B, 200, 20), portfolio rows (A, 50) and (C, 30). *)
Definition example_turnover : TurnoverFrame :=
  [TurnoverRecord.mk (Some "A") 100 10; TurnoverRecord.mk (Some "B") 200 20].

Definition example_portfolio : PortfolioFrame :=
  [PortfolioRecord.mk (Some "A") 50; PortfolioRecord.mk (Some "C") 30].

(** A workbook whose first sheet has no [Turnover] column. *)
Definition no_turnover_column_file : RawUpload :=
  {| read_Source_Turnover :=
       ret [("Customer", [Text "A"; Text "B"]);
            ("Margin", [Number 10; Number 20])];
     read_Source_Portfolio :=
       ret [("Customer", [Text "A"]); ("Net amount", [Number 50])] |}.

(** The sheets have the columns of the data model. *)
Definition has_column (df : RawFrame) (label : string) : bool :=
  existsb (String.eqb label) (map fst df).

Definition expected_sheets (file : RawUpload) : Prop :=
  exists df_turnover df_portfolio,
    read_Source_Turnover file = ret df_turnover
    /\ read_Source_Portfolio file = ret df_portfolio
    /\ forallb (has_column df_turnover) ["Customer"; "Turnover"; "Margin"]
       = true
    /\ forallb (has_column df_portfolio) ["Customer"; "Net amount"] = true.

(** The claim on ingestion as the specification words it: an input that
    does not parse into the two expected sheets, a sheet of another
    structure included, ends in the message and the result of no input. *)
Definition parse_failure_claim : Prop :=
  forall file : RawUpload,
    ~ expected_sheets file ->
    exists e,
      load_data (Some file)
      = ([st_error (read_error_message e)], (None, None)).

(** The [Turnover] column of the worked example as [read_excel] types
    it: two integers, an int64 column. *)
Definition example_Turnover_column : Machine.Series :=
  Machine.Int64Column [100; 200]%Z.

(** The claim on the monthly allocation as the specification words it,
    on the floats the script computes: the weights sum to 1, and the
    running sum at month 12 is [turnover_val]. *)
Definition allocation_claim : Prop :=
  Machine.pairwise_sum (Machine.normalize (Machine.rand 11)) = 1%float
  /\ forall column : Machine.Series,
       let turnover_val := Machine.Series_sum column in
       nth 11 (Machine.Cumulativo_Fatturato turnover_val) 0%float
       = Machine.to_float64 turnover_val.

(** The arithmetic sum of the cells of a float64 column, when all are
    finite. *)
Fixpoint arithmetic_sum (cells : list Machine.f64) : option Q :=
  match cells with
  | [] => Some 0
  | x :: rest =>
      match Machine.float_to_Q x, arithmetic_sum rest with
      | Some q, Some total => Some (q + total)
      | _, _ => None
      end
  end.

(** [x] stands for the rational [q]. *)
Definition represents (x : Machine.f64) (q : option Q) : bool :=
  match Machine.float_to_Q x, q with
  | Some y, Some q => Qeq_bool y q
  | _, _ => false
  end.

Definition in_int64 (n : Z) : Prop := (- 2 ^ 63 <= n < 2 ^ 63)%Z.

(** The claim on the KPI sums as the specification words it, on the two
    kinds of numeric column: the sum is the arithmetic sum of the cells,
    and it does not depend on the order of the rows. *)
Definition Series_sum_claim : Prop :=
  (forall cells : list Z,
      cells <> [] -> Forall in_int64 cells ->
      Machine.Series_sum (Machine.Int64Column cells)
      = Machine.NpInt64 (fold_right Z.add 0%Z cells))
  /\ (forall cells : list Machine.f64,
        cells <> [] ->
        arithmetic_sum cells <> None ->
        represents (Machine.pairwise_sum cells) (arithmetic_sum cells)
        = true)
  /\ (forall cells cells' : list Machine.f64,
        cells <> [] -> Permutation cells cells' ->
        Machine.Series_sum (Machine.Float64Column cells')
        = Machine.Series_sum (Machine.Float64Column cells)).

(** Two sheets with amounts that are not binary fractions: turnover rows
    (C, 0.1, 0.01), (B, 0.2, 0.02), (A, 0.3, 0.03), portfolio row
    (A, 0.25). *)
Definition decimal_turnover : list MachineRollup.TurnoverRow :=
  [MachineRollup.Build_TurnoverRow (Some "C") 0.1 0.01;
   MachineRollup.Build_TurnoverRow (Some "B") 0.2 0.02;
   MachineRollup.Build_TurnoverRow (Some "A") 0.3 0.03]%float.

Definition decimal_portfolio : list MachineRollup.PortfolioRow :=
  [MachineRollup.Build_PortfolioRow (Some "A") 0.25%float].

(** The conservation claim as worded, on float64 sheets: the [Totale]
    column of the merged frame sums to [turnover_val + portfolio_val]. *)
Definition conservation_claim : Prop :=
  forall df_turnover df_portfolio,
    keyed MachineRollup.t_Customer df_turnover ->
    keyed MachineRollup.p_Customer df_portfolio ->
    MachineRollup.Totale_sum df_turnover df_portfolio
    = Machine.add (MachineRollup.turnover_val df_turnover)
                  (MachineRollup.portfolio_val df_portfolio).

(** Eighteen customers with a turnover of 1 each, of whom every other
    one has a portfolio of 1: [Totale] is 2, 1, 2, 1, ... down the merged
    frame. *)
Definition customers_18 : list string :=
  ["C01"; "C02"; "C03"; "C04"; "C05"; "C06"; "C07"; "C08"; "C09";
   "C10"; "C11"; "C12"; "C13"; "C14"; "C15"; "C16"; "C17"; "C18"].

Definition tied_turnover : list MachineRollup.TurnoverRow :=
  map (fun c => MachineRollup.Build_TurnoverRow (Some c) 1%float 0%float)
      customers_18.

Definition tied_portfolio : list MachineRollup.PortfolioRow :=
  map (fun c => MachineRollup.Build_PortfolioRow (Some c) 1%float)
      ["C01"; "C03"; "C05"; "C07"; "C09"; "C11"; "C13"; "C15"; "C17"].

(** The claim on the rollup as the specification words it: at most ten
    rows, non-increasing, and ties in the order of the merged frame, that
    is, the first ten rows of the stable sort. *)
Definition stable_top_10_claim : Prop :=
  forall df_turnover df_portfolio out,
    MachineRollup.top_10 df_turnover df_portfolio = Some out ->
    (length out <= 10)%nat
    /\ out = firstn 10 (MachineRollup.stable_sort_desc
                          (MachineRollup.merged df_turnover df_portfolio)).

(** No row was loaded: no frames at all, or two frames without rows.
    These are the runs in which [total_forecast] is a Python [int]. *)
Definition no_rows (loaded : option TurnoverFrame * option PortfolioFrame)
  : bool :=
  match loaded with
  | (None, _) => true
  | (Some [], Some []) => true
  | _ => false
  end.

(** Twelve customers, for a rollup that is cut at ten rows. *)
Definition twelve_turnover : TurnoverFrame :=
  map (fun p => TurnoverRecord.mk (Some (fst p)) (inject_Z (snd p)) 0)
      (combine (firstn 12 customers_18)
               [30; 10; 50; 20; 60; 40; 120; 70; 90; 110; 80; 100]%Z).

(** * Properties *)

(** Two float constants are told apart by comparing both with the second
    one. *)
Ltac float_discriminate H :=
  match type of H with
  | ?x = ?y =>
      apply (f_equal (fun v => PrimFloat.eqb v y)) in H;
      vm_compute in H; discriminate H
  end.

(** ** Ingestion *)

Lemma load_data_absent {T P : Type} :
  load_data (@None (Upload T P)) = ([], (None, None)).
Proof. reflexivity. Qed.

Lemma load_data_parsed {T P : Type} (file : Upload T P)
    df_turnover df_portfolio :
  read_Source_Turnover file = inr df_turnover ->
  read_Source_Portfolio file = inr df_portfolio ->
  load_data (Some file) = ([], (Some df_turnover, Some df_portfolio)).
Proof.
  intros Ht Hp. unfold load_data. rewrite Ht, Hp. reflexivity.
Qed.

(** Indexing never fails on the sheets that typed frames stand for. *)
Lemma kpi_columns_typed (df_turnover : TurnoverFrame)
    (df_portfolio : PortfolioFrame) :
  kpi_columns (turnover_sheet df_turnover) (portfolio_sheet df_portfolio)
  = ret (map (fun r => Number (TurnoverRecord.Turnover r)) df_turnover,
         map (fun r => Number (PortfolioRecord.Net_amount r)) df_portfolio).
Proof. reflexivity. Qed.

(** C7 as stated fails on a sheet of another structure.  A workbook
    whose [Source_Turnover] sheet has no [Turnover] column is read without
    an exception: [load_data] shows nothing and returns the two frames,
    and the script stops at line 70 on [KeyError]. *)
Lemma load_data_accepts_missing_column :
  ~ expected_sheets no_turnover_column_file
  /\ (exists df_turnover df_portfolio,
        load_data (Some no_turnover_column_file)
        = ([], (Some df_turnover, Some df_portfolio))
        /\ kpi_columns df_turnover df_portfolio
           = raise (KeyError "Turnover"))
  /\ ~ parse_failure_claim.
Proof.
  assert (Hbad : ~ expected_sheets no_turnover_column_file).
  { intros (df_turnover & df_portfolio & Ht & _ & Hcols & _).
    cbn in Ht. injection Ht as <-.
    vm_compute in Hcols. discriminate Hcols. }
  split; [ exact Hbad | ].
  split; [ do 2 eexists; split; reflexivity | ].
  intros Hclaim. destruct (Hclaim _ Hbad) as [e He].
  cbn in He. discriminate He.
Qed.

(** C7, amended.  When one of the two [pd.read_excel] calls raises (a
    missing sheet, an unreadable file, a sheet pandas cannot parse),
    [load_data] raises nothing: it shows one [st.error] whose text embeds
    [str(e)] for the exception [e] that the read raised, and it returns the
    [(None, None)] it returns when no file was supplied.  This holds
    whatever a frame is; a sheet that is read but has other columns is not
    such a failure, and [load_data] returns it as it is. *)
Theorem load_data_parse_failure {T P : Type} (file : Upload T P) :
  (forall df_turnover df_portfolio,
      ~ (read_Source_Turnover file = inr df_turnover /\
         read_Source_Portfolio file = inr df_portfolio)) ->
  exists e,
    (read_Source_Turnover file = inl e \/ read_Source_Portfolio file = inl e)
    /\ load_data (Some file) = ([st_error (read_error_message e)], (None, None))
    /\ read_error_message e
       = "Errore nella lettura del file: "
           ++ (str e ++ ". Assicurati di usare il file Excel corretto.")
    /\ snd (load_data (Some file)) = snd (load_data None).
Proof.
  intros Hfail. unfold load_data.
  destruct (read_Source_Turnover file) as [e | df_turnover] eqn:Ht.
  - exists e. cbn. auto.
  - destruct (read_Source_Portfolio file) as [e | df_portfolio] eqn:Hp.
    + exists e. cbn. auto.
    + exfalso. apply (Hfail df_turnover df_portfolio). split; reflexivity.
Qed.

Lemma load_data_parse_failure_witness :
  exists e,
    (read_Source_Turnover missing_sheet_file = inl e
     \/ read_Source_Portfolio missing_sheet_file = inl e)
    /\ load_data (Some missing_sheet_file)
       = ([st_error (read_error_message e)], (None, None))
    /\ read_error_message e
       = "Errore nella lettura del file: "
           ++ (str e ++ ". Assicurati di usare il file Excel corretto.")
    /\ snd (load_data (Some missing_sheet_file)) = snd (load_data None).
Proof.
  apply (load_data_parse_failure missing_sheet_file).
  intros df_turnover df_portfolio [Ht _]. discriminate Ht.
Defined.

(** C10.  [load_data] returns two frames or two [None]s, whatever the
    input: absent, parsed, or failing on either sheet. *)
Theorem load_data_both_or_neither (uploaded_file : option UploadedFile) :
  (exists df_turnover df_portfolio,
      snd (load_data uploaded_file) = (Some df_turnover, Some df_portfolio))
  \/ snd (load_data uploaded_file) = (None, None).
Proof.
  destruct uploaded_file as [file | ]; [ | right; reflexivity ].
  unfold load_data.
  destruct (read_Source_Turnover file) as [e | df_turnover];
    [ right; reflexivity | ].
  destruct (read_Source_Portfolio file) as [e | df_portfolio];
    [ right; reflexivity | ].
  left. exists df_turnover, df_portfolio. reflexivity.
Qed.

(** ** KPI scalars *)

Lemma to_Q_add (a b : number) : to_Q (add a b) = to_Q a + to_Q b.
Proof.
  destruct a as [m | x], b as [n | y]; cbn [add to_Q]; try reflexivity.
  apply inject_Z_plus.
Qed.

Lemma inr_inj {A B : Type} (x y : B) : @inr A B x = inr y -> x = y.
Proof. intros H. congruence. Qed.

(** What [load_data] can return. *)
Lemma load_data_cases (uploaded_file : option UploadedFile) :
  (exists file df_turnover df_portfolio,
      uploaded_file = Some file
      /\ read_Source_Turnover file = inr df_turnover
      /\ read_Source_Portfolio file = inr df_portfolio
      /\ load_data uploaded_file = ([], (Some df_turnover, Some df_portfolio)))
  \/ (exists file e,
         uploaded_file = Some file
         /\ (read_Source_Turnover file = inl e
             \/ read_Source_Portfolio file = inl e)
         /\ load_data uploaded_file
            = ([st_error (read_error_message e)], (None, None)))
  \/ (uploaded_file = None /\ load_data uploaded_file = ([], (None, None))).
Proof.
  destruct uploaded_file as [file | ]; [ | right; right; split; reflexivity ].
  unfold load_data.
  destruct (read_Source_Turnover file) as [e | df_turnover] eqn:Ht.
  - right; left. exists file, e. cbn. auto.
  - destruct (read_Source_Portfolio file) as [e | df_portfolio] eqn:Hp.
    + right; left. exists file, e. cbn. auto.
    + left. exists file, df_turnover, df_portfolio. cbn. auto.
Qed.

Lemma load_data_pair (uploaded_file : option UploadedFile) :
  (exists df_turnover df_portfolio,
      snd (load_data uploaded_file) = (Some df_turnover, Some df_portfolio))
  \/ snd (load_data uploaded_file) = (None, None).
Proof.
  destruct (load_data_cases uploaded_file)
    as [(file & t & p & _ & _ & _ & ->)
       | [(file & e & _ & _ & ->) | [_ ->]]]; cbn [snd]; eauto.
Qed.

(** The KPI stage never raises on what [load_data] returns. *)
Lemma kpi_after_load_data rng budget_annuale uploaded_file :
  exists k,
    snd (kpi rng budget_annuale (snd (load_data uploaded_file))) = inr k.
Proof.
  destruct (load_data_pair uploaded_file)
    as [(df_turnover & df_portfolio & Hl) | Hl];
    rewrite Hl; unfold kpi; eexists; reflexivity.
Qed.

(** C6.  On every input the KPI stage returns, with [total_forecast] the
    sum [turnover_val + portfolio_val] and [budget_mensile] the twelfth of
    [budget_annuale]. *)
Theorem total_forecast_and_budget_mensile rng budget_annuale uploaded_file :
  exists k,
    snd (kpi rng budget_annuale (snd (load_data uploaded_file))) = inr k
    /\ total_forecast k = add (turnover_val k) (portfolio_val k)
    /\ to_Q (total_forecast k)
       = to_Q (turnover_val k) + to_Q (portfolio_val k)
    /\ budget_mensile k = inject_Z budget_annuale / 12.
Proof.
  destruct (kpi_after_load_data rng budget_annuale uploaded_file) as [k Hk].
  exists k. split; [ exact Hk | ].
  assert (Hsum : total_forecast k = add (turnover_val k) (portfolio_val k)
                 /\ budget_mensile k = inject_Z budget_annuale / 12).
  { destruct (load_data_pair uploaded_file)
      as [(df_turnover & df_portfolio & Hl) | Hl];
      rewrite Hl in Hk; unfold kpi in Hk; cbn [snd] in Hk;
      apply inr_inj in Hk; subst k; split; reflexivity. }
  destruct Hsum as [Hsum Hmonth].
  repeat split; [ exact Hsum | rewrite Hsum; apply to_Q_add | exact Hmonth ].
Qed.

(** C8.  Without an uploaded file [load_data] returns [(None, None)], the
    KPI stage binds the demo scalars 1530000 and 450000, and the rollup
    section is skipped: its guard yields no table. *)
Theorem no_file_demo_scalars rng budget_annuale :
  snd (load_data (@None UploadedFile)) = (None, None)
  /\ (exists k,
        snd (kpi rng budget_annuale (snd (load_data None))) = inr k
        /\ turnover_val k = PyInt 1530000
        /\ portfolio_val k = PyInt 450000)
  /\ rollup (snd (load_data None)) = ret None.
Proof.
  split; [ reflexivity | ].
  split; [ eexists; repeat split | ].
  reflexivity.
Qed.

(** C1 (the code as it stands).  With no file and a budget of zero, which
    the sidebar allows ([min_value=0]), the delta of the third card divides
    two Python [int]s and the run stops on [ZeroDivisionError]. *)
Theorem zero_budget_raises rng :
  snd (dashboard rng 0 None) = inl ZeroDivisionError.
Proof. reflexivity. Qed.

(** With real data the same expression divides a numpy scalar: nothing is
    raised, and the card shows an infinity or a NaN. *)
Lemma zero_budget_real_data (x : Q) :
  percent_vs_budget (NpFloat x) 0
  = ret (match x ?= 0 with
         | Eq => NaN
         | Gt => Inf false
         | Lt => Inf true
         end).
Proof.
  unfold percent_vs_budget, truediv. cbn.
  destruct (x ?= 0); reflexivity.
Qed.

Lemma percent_vs_budget_nonzero total_forecast budget_annuale :
  budget_annuale <> 0%Z ->
  percent_vs_budget total_forecast budget_annuale
  = ret (Finite ((to_Q total_forecast / inject_Z budget_annuale - 1) * 100)).
Proof.
  intros Hne. unfold percent_vs_budget, truediv.
  apply Z.eqb_neq in Hne.
  destruct total_forecast; rewrite Hne; reflexivity.
Qed.

(** ** Sums *)

Lemma sumQ_nil : sumQ [] = 0.
Proof. reflexivity. Qed.

Lemma sumQ_cons (x : Q) (l : list Q) : sumQ (x :: l) = x + sumQ l.
Proof. reflexivity. Qed.

Lemma sumQ_app (l1 l2 : list Q) : sumQ (l1 ++ l2) == sumQ l1 + sumQ l2.
Proof.
  induction l1 as [ | x l1 IH]; cbn [app]; rewrite ?sumQ_nil, ?sumQ_cons.
  - ring.
  - rewrite IH. ring.
Qed.

Lemma sumQ_Permutation (l l' : list Q) :
  Permutation l l' -> sumQ l == sumQ l'.
Proof.
  induction 1 as [ | x l l' _ IH | x y l | l l' l'' _ IH1 _ IH2];
    rewrite ?sumQ_cons.
  - reflexivity.
  - rewrite IH. reflexivity.
  - ring.
  - rewrite IH1. exact IH2.
Qed.

Lemma to_Q_Series_sum (cells : list Q) :
  to_Q (Series_sum cells) = sumQ cells.
Proof. destruct cells; reflexivity. Qed.

(** An int64 addition wraps, and wrapping commutes with adding. *)
Lemma wrap64_add (a b : Z) :
  Machine.wrap64 (Machine.wrap64 a + b) = Machine.wrap64 (a + b).
Proof.
  unfold Machine.wrap64. f_equal.
  replace ((a + 2 ^ 63) mod 2 ^ 64 - 2 ^ 63 + b + 2 ^ 63)%Z
    with ((a + 2 ^ 63) mod 2 ^ 64 + b)%Z by ring.
  rewrite Zplus_mod_idemp_l. f_equal. ring.
Qed.

Lemma wrap64_small (z : Z) : in_int64 z -> Machine.wrap64 z = z.
Proof.
  unfold in_int64, Machine.wrap64. intros H.
  rewrite Z.mod_small by lia. ring.
Qed.

Lemma int64_sum_from (cells : list Z) : forall acc : Z,
  fold_left (fun acc x => Machine.wrap64 (acc + x)) cells (Machine.wrap64 acc)
  = Machine.wrap64 (acc + fold_right Z.add 0%Z cells).
Proof.
  induction cells as [ | x cells IH]; intros acc; cbn [fold_left fold_right].
  - rewrite Z.add_0_r. reflexivity.
  - rewrite wrap64_add, IH. f_equal. ring.
Qed.

(** The int64 sum is the arithmetic sum, wrapped once. *)
Lemma int64_sum_wraps (cells : list Z) :
  Machine.int64_sum cells = Machine.wrap64 (fold_right Z.add 0%Z cells).
Proof.
  unfold Machine.int64_sum.
  change 0%Z with (Machine.wrap64 0) at 1.
  rewrite int64_sum_from. reflexivity.
Qed.

Lemma Zsum_Permutation (l l' : list Z) :
  Permutation l l' -> fold_right Z.add 0%Z l = fold_right Z.add 0%Z l'.
Proof.
  induction 1 as [ | x l l' _ IH | x y l | l l' l'' _ IH1 _ IH2];
    cbn [fold_right]; lia.
Qed.

(** C5 as stated fails on both kinds of column.  Two int64 cells of
    2^62 sum to -2^63.  The float64 cells 0.1, 0.2, 0.3 sum to
    0.6000000000000001 in that order and to 0.6 in the reverse order, and
    the float sum of 0.1 and 0.2 is not the sum of the two numbers. *)
Lemma Series_sum_wraps_and_rounds :
  Machine.Series_sum (Machine.Int64Column [2 ^ 62; 2 ^ 62]%Z)
  = Machine.NpInt64 (- 2 ^ 63)
  /\ Machine.Series_sum (Machine.Float64Column [0.1; 0.2; 0.3]%float)
     = Machine.NpFloat64 0.6000000000000001%float
  /\ Machine.Series_sum (Machine.Float64Column [0.3; 0.2; 0.1]%float)
     = Machine.NpFloat64 0.6%float
  /\ 0.6000000000000001%float <> 0.6%float
  /\ represents (Machine.pairwise_sum [0.1; 0.2]%float)
                (arithmetic_sum [0.1; 0.2]%float)
     = false
  /\ ~ Series_sum_claim.
Proof.
  split; [ vm_compute; reflexivity | ].
  split; [ vm_compute; reflexivity | ].
  split; [ vm_compute; reflexivity | ].
  split; [ intros H; float_discriminate H | ].
  split; [ vm_compute; reflexivity | ].
  intros (Hint & _ & _).
  assert (H : Machine.Series_sum (Machine.Int64Column [2 ^ 62; 2 ^ 62]%Z)
              = Machine.NpInt64 (fold_right Z.add 0%Z [2 ^ 62; 2 ^ 62]%Z)).
  { apply Hint; [ discriminate | ].
    repeat constructor; vm_compute; intros H; discriminate H. }
  vm_compute in H. discriminate H.
Qed.

(** C5, amended.  In the real-data branch [turnover_val] is
    [Series.sum()] of the whole [Turnover] column and [portfolio_val] that
    of the whole [Net amount] column, no row left out.  In exact arithmetic
    that is the arithmetic sum, and reordering the rows of either sheet
    leaves both values unchanged.  On an int64 column the machine sum is
    the arithmetic sum wrapped to 64 bits: it does not depend on the order
    of the rows, and it is the arithmetic sum when that fits in an
    int64. *)
Theorem kpi_sums_all_rows rng budget_annuale
    (df_turnover df_turnover' : TurnoverFrame)
    (df_portfolio df_portfolio' : PortfolioFrame)
    (cells cells' : list Z) :
  Permutation df_turnover df_turnover' ->
  Permutation df_portfolio df_portfolio' ->
  Permutation cells cells' ->
  (exists k k',
      snd (kpi rng budget_annuale (Some df_turnover, Some df_portfolio))
      = inr k
      /\ snd (kpi rng budget_annuale (Some df_turnover', Some df_portfolio'))
         = inr k'
      /\ turnover_val k
         = Series_sum (map TurnoverRecord.Turnover df_turnover)
      /\ portfolio_val k
         = Series_sum (map PortfolioRecord.Net_amount df_portfolio)
      /\ to_Q (turnover_val k)
         = sumQ (map TurnoverRecord.Turnover df_turnover)
      /\ to_Q (portfolio_val k)
         = sumQ (map PortfolioRecord.Net_amount df_portfolio)
      /\ to_Q (turnover_val k') == to_Q (turnover_val k)
      /\ to_Q (portfolio_val k') == to_Q (portfolio_val k))
  /\ Machine.Series_sum (Machine.Int64Column cells)
     = Machine.NpInt64 (Machine.wrap64 (fold_right Z.add 0%Z cells))
  /\ Machine.Series_sum (Machine.Int64Column cells')
     = Machine.Series_sum (Machine.Int64Column cells)
  /\ (in_int64 (fold_right Z.add 0%Z cells) ->
      Machine.Series_sum (Machine.Int64Column cells)
      = Machine.NpInt64 (fold_right Z.add 0%Z cells)).
Proof.
  intros Ht Hp Hc. split.
  - do 2 eexists.
    split; [ reflexivity | ]. split; [ reflexivity | ].
    cbn [turnover_val portfolio_val].
    split; [ reflexivity | ]. split; [ reflexivity | ].
    rewrite !to_Q_Series_sum.
    split; [ reflexivity | ]. split; [ reflexivity | ].
    split; symmetry; apply sumQ_Permutation, Permutation_map; assumption.
  - cbn [Machine.Series_sum]. rewrite !int64_sum_wraps.
    rewrite <- (Zsum_Permutation cells cells' Hc).
    split; [ reflexivity | ]. split; [ reflexivity | ].
    intros Hfit. rewrite wrap64_small by exact Hfit. reflexivity.
Qed.

(** ** Monthly allocation *)

Lemma sumQ_scale (c : Q) (l : list Q) :
  sumQ (map (fun w => w * c) l) == sumQ l * c.
Proof.
  induction l as [ | x l IH]; cbn [map]; rewrite ?sumQ_nil, ?sumQ_cons.
  - ring.
  - rewrite IH. ring.
Qed.

Lemma sumQ_positive (l : list Q) :
  l <> [] -> Forall (fun w => 0 < w) l -> 0 < sumQ l.
Proof.
  intros Hne Hpos. induction Hpos as [ | x l Hx Hl IH]; [ congruence | ].
  rewrite sumQ_cons. destruct l as [ | y l].
  - rewrite sumQ_nil, Qplus_0_r. exact Hx.
  - rewrite <- (Qplus_0_r 0).
    apply Qplus_lt_le_compat; [ exact Hx | ].
    apply Qlt_le_weak, IH. discriminate.
Qed.

Lemma sumQ_normalize (weights : list Q) :
  ~ sumQ weights == 0 -> sumQ (normalize weights) == 1.
Proof.
  intros Hne. unfold normalize.
  transitivity (sumQ weights * / sumQ weights).
  - apply (sumQ_scale (/ sumQ weights) weights).
  - apply Qmult_inv_r, Hne.
Qed.

Lemma normalize_positive (weights : list Q) :
  weights <> [] -> Forall (fun w => 0 < w) weights ->
  Forall (fun w => 0 < w) (normalize weights).
Proof.
  intros Hne Hpos. pose proof (sumQ_positive weights Hne Hpos) as Hsum.
  unfold normalize. apply Forall_map.
  apply Forall_impl with (2 := Hpos). intros w Hw.
  apply Qlt_shift_div_l; [ exact Hsum | ]. rewrite Qmult_0_l. exact Hw.
Qed.

(** Entry [n] of a running sum is the sum of the first [n + 1] cells. *)
Lemma nth_cumsum_from (l : list Q) : forall (acc : Q) (n : nat) (d : Q),
  (n < length l)%nat ->
  nth n (cumsum_from acc l) d == acc + sumQ (firstn (S n) l).
Proof.
  induction l as [ | x l IH]; intros acc n d Hn; [ cbn in Hn; lia | ].
  destruct n as [ | n].
  - cbn [cumsum_from nth firstn]. rewrite sumQ_cons, sumQ_nil. ring.
  - cbn [cumsum_from nth]. rewrite IH by (cbn in Hn; lia).
    cbn [firstn]. rewrite !sumQ_cons. ring.
Qed.

Lemma draw_length {A : Type} (generator : nat -> A) (size : nat) :
  length (draw generator size) = size.
Proof. unfold draw. rewrite length_map, length_seq. reflexivity. Qed.

Lemma draw_Forall {A : Type} (P : A -> Prop) (generator : nat -> A) size :
  (forall i, (i < size)%nat -> P (generator i)) ->
  Forall P (draw generator size).
Proof.
  intros H. unfold draw. apply Forall_map, Forall_forall.
  intros i Hi. apply in_seq in Hi. apply H. lia.
Qed.

(** The eleven draws that follow [np.random.seed(42)] are positive. *)
Lemma rand_exact_positive :
  Forall (fun w => 0 < w) (draw Machine.rand_exact 11).
Proof.
  unfold draw. cbn [seq map].
  repeat (apply Forall_cons; [ vm_compute; reflexivity | ]).
  apply Forall_nil.
Qed.

Lemma normalize_length (weights : list Q) :
  length (normalize weights) = length weights.
Proof. unfold normalize. apply length_map. Qed.

(** The allocation in exact arithmetic, for any positive weights. *)
Lemma monthly_vals_allocation (raw : list Q) (t : Q) :
  raw <> [] ->
  Forall (fun w => 0 < w) raw ->
  let weights := normalize raw in
  Forall (fun w => 0 < w) weights
  /\ sumQ weights == 1
  /\ length (monthly_vals raw t) = S (length raw)
  /\ firstn (length raw) (monthly_vals raw t)
     = map (fun w => w * t) weights
  /\ nth (length raw) (monthly_vals raw t) 1 = 0
  /\ nth (length raw) (cumsum (monthly_vals raw t)) 0 == t.
Proof.
  intros Hne Hraw weights.
  assert (Hsum : sumQ (normalize raw) == 1).
  { apply sumQ_normalize. intros E.
    pose proof (sumQ_positive raw Hne Hraw) as H. rewrite E in H.
    exact (Qlt_irrefl 0 H). }
  set (scaled := map (fun w => w * t) (normalize raw)).
  assert (Hslen : length scaled = length raw)
    by (unfold scaled; rewrite length_map; apply normalize_length).
  unfold monthly_vals. fold scaled.
  split; [ apply normalize_positive; assumption | ].
  split; [ exact Hsum | ].
  split; [ rewrite length_app, Hslen; cbn [length]; lia | ].
  split; [ rewrite <- Hslen, firstn_app, Nat.sub_diag, firstn_all;
           cbn [firstn]; apply app_nil_r | ].
  split; [ rewrite <- Hslen, nth_middle; reflexivity | ].
  unfold cumsum. rewrite nth_cumsum_from
    by (rewrite length_app, Hslen; cbn [length]; lia).
  rewrite firstn_all2 by (rewrite length_app, Hslen; cbn [length]; lia).
  rewrite sumQ_app. unfold scaled. rewrite sumQ_scale, Hsum.
  rewrite sumQ_cons, sumQ_nil. ring.
Qed.

(** C2 as stated fails on the floats the script computes.  For the
    worked example, whose [turnover_val] is the int64 300, the running sum
    at month 12 is 299.99999999999994, and the eleven weights sum to
    0.9999999999999999. *)
Lemma cumulative_month_12_rounds :
  Machine.Series_sum example_Turnover_column = Machine.NpInt64 300
  /\ nth 11 (Machine.Cumulativo_Fatturato
               (Machine.Series_sum example_Turnover_column)) 0%float
     = 299.99999999999994%float
  /\ 299.99999999999994%float <> 300%float
  /\ Machine.pairwise_sum (Machine.normalize (Machine.rand 11))
     = 0.9999999999999999%float
  /\ ~ allocation_claim.
Proof.
  split; [ vm_compute; reflexivity | ].
  split; [ vm_compute; reflexivity | ].
  split; [ intros H; float_discriminate H | ].
  split; [ vm_compute; reflexivity | ].
  intros [Hsum _]. float_discriminate Hsum.
Qed.

(** C2, amended.  In the real-data branch the weights are the eleven
    draws that follow [np.random.seed(42)], all positive, each divided by
    their sum; months 1 to 11 of [Fatturato] are the weights times
    [turnover_val] and month 12 is zero.  In exact arithmetic the weights
    sum to 1 and the running sum at month 12 equals [turnover_val].  On the
    floats the script computes, the draws are the same numbers, the
    weights are positive, there are twelve months, the first eleven are
    the products and the last is zero; the two equalities hold there up
    to rounding only. *)
Theorem monthly_allocation_real_data rng budget_annuale
    (df_turnover : TurnoverFrame) (df_portfolio : PortfolioFrame)
    (turnover_val' : Machine.scalar) :
  (exists k,
      snd (kpi rng budget_annuale (Some df_turnover, Some df_portfolio))
      = inr k
      /\ let weights := normalize (draw Machine.rand_exact 11) in
         let frame := chart k in
         length weights = 11%nat
         /\ Forall (fun w => 0 < w) weights
         /\ sumQ weights == 1
         /\ length (MonthlyPoints.Fatturato frame) = 12%nat
         /\ firstn 11 (MonthlyPoints.Fatturato frame)
            = map (fun w => w * to_Q (turnover_val k)) weights
         /\ nth 11 (MonthlyPoints.Fatturato frame) 1 = 0
         /\ nth 11 (MonthlyPoints.Cumulativo_Fatturato frame) 0
            == to_Q (turnover_val k))
  /\ forallb (fun p => represents (fst p) (Some (snd p)))
             (combine (Machine.rand 11) (draw Machine.rand_exact 11))
     = true
  /\ forallb (PrimFloat.ltb 0) (Machine.normalize (Machine.rand 11)) = true
  /\ length (Machine.monthly_vals turnover_val') = 12%nat
  /\ firstn 11 (Machine.monthly_vals turnover_val')
     = map (fun w => PrimFloat.mul w (Machine.to_float64 turnover_val'))
           (Machine.normalize (Machine.rand 11))
  /\ nth 11 (Machine.monthly_vals turnover_val') 1%float = 0%float.
Proof.
  split.
  - eexists. split; [ reflexivity | ].
    set (raw := draw Machine.rand_exact 11).
    assert (Hlen : length raw = 11%nat) by apply draw_length.
    assert (Hne : raw <> []) by (intros E; rewrite E in Hlen; discriminate).
    cbn [chart df_chart kpi snd turnover_val budget_mensile
         MonthlyPoints.Fatturato MonthlyPoints.Cumulativo_Fatturato].
    fold raw. rewrite to_Q_Series_sum.
    set (t := sumQ (map TurnoverRecord.Turnover df_turnover)).
    destruct (monthly_vals_allocation raw t Hne rand_exact_positive)
      as (Hpos & Hsum & Hmlen & Hfirst & Hlast & Hcum).
    rewrite Hlen in Hmlen, Hfirst, Hlast, Hcum.
    split; [ rewrite normalize_length; exact Hlen | ].
    exact (conj Hpos (conj Hsum (conj Hmlen
             (conj Hfirst (conj Hlast Hcum))))).
  - split; [ vm_compute; reflexivity | ].
    split; [ vm_compute; reflexivity | ].
    assert (Hlen : length (map (fun w => PrimFloat.mul
                                 w (Machine.to_float64 turnover_val'))
                               (Machine.normalize (Machine.rand 11)))
                   = 11%nat).
    { unfold Machine.normalize, Machine.rand.
      rewrite !length_map, length_seq. reflexivity. }
    unfold Machine.monthly_vals.
    split; [ rewrite length_app, Hlen; reflexivity | ].
    split; [ rewrite <- Hlen at 1;
             rewrite firstn_app, Nat.sub_diag, firstn_all;
             cbn [firstn]; apply app_nil_r | ].
    rewrite <- Hlen at 1. rewrite nth_middle. reflexivity.
Qed.

(** ** Group keys *)

Lemma insert_key_Permutation (k : string) (l : list string) :
  Permutation (k :: l) (insert_key k l).
Proof.
  induction l as [ | k' l IH]; cbn; [ reflexivity | ].
  destruct (String.leb k k'); [ reflexivity | ].
  rewrite perm_swap. apply perm_skip, IH.
Qed.

Lemma sort_keys_Permutation (l : list string) :
  Permutation l (sort_keys l).
Proof.
  induction l as [ | k l IH]; cbn; [ reflexivity | ].
  rewrite <- insert_key_Permutation. apply perm_skip, IH.
Qed.

Lemma sort_keys_In (k : string) (l : list string) :
  In k (sort_keys l) <-> In k l.
Proof.
  split; apply Permutation_in;
    [ symmetry | ]; apply sort_keys_Permutation.
Qed.

Lemma sort_keys_NoDup (l : list string) :
  NoDup l -> NoDup (sort_keys l).
Proof. apply Permutation_NoDup, sort_keys_Permutation. Qed.

Lemma dropna_In (k : string) (column : list (option string)) :
  In k (dropna column) <-> In (Some k) column.
Proof.
  induction column as [ | [k' | ] column IH]; cbn.
  - reflexivity.
  - rewrite IH. split; (intros [H | H]; [ left; congruence | right; exact H ]).
  - rewrite IH. split; [ auto | intros [H | H]; [ discriminate | exact H ] ].
Qed.

Lemma group_keys_In (k : string) (column : list (option string)) :
  In k (group_keys column) <-> In (Some k) column.
Proof.
  unfold group_keys. rewrite sort_keys_In, nodup_In. apply dropna_In.
Qed.

Lemma group_keys_NoDup (column : list (option string)) :
  NoDup (group_keys column).
Proof. apply sort_keys_NoDup, NoDup_nodup. Qed.

(** Looking a key up in a frame built with one row per key. *)
Lemma lookup_keyed {V : Type} (value : string -> V) (k : string)
    (keys : list string) :
  lookup k (map (fun k' => (k', value k')) keys)
  = if in_dec string_dec k keys then Some (value k) else None.
Proof.
  induction keys as [ | k' keys IH]; cbn [map lookup]; [ reflexivity | ].
  destruct (String.eqb_spec k k') as [<- | Hne].
  - destruct (in_dec string_dec k (k :: keys)) as [ | Hout];
      [ reflexivity | ].
    exfalso. apply Hout. left. reflexivity.
  - rewrite IH.
    destruct (in_dec string_dec k keys) as [Hin | Hout],
             (in_dec string_dec k (k' :: keys)) as [Hin' | Hout'];
      try reflexivity.
    + exfalso. apply Hout'. right. exact Hin.
    + exfalso. destruct Hin' as [E | Hin']; [ congruence | auto ].
Qed.

Lemma keyed_keys {V : Type} (value : string -> V) (keys : list string) :
  map fst (map (fun k => (k, value k)) keys) = keys.
Proof. rewrite map_map. cbn. apply map_id. Qed.

Lemma cust_sales_keys (df_turnover : TurnoverFrame) :
  map fst (cust_sales df_turnover)
  = group_keys (map TurnoverRecord.Customer df_turnover).
Proof. unfold cust_sales. apply keyed_keys. Qed.

Lemma cust_portfolio_keys (df_portfolio : PortfolioFrame) :
  map fst (cust_portfolio df_portfolio)
  = group_keys (map PortfolioRecord.Customer df_portfolio).
Proof. unfold cust_portfolio. apply keyed_keys. Qed.

Lemma merged_keys_In df_turnover df_portfolio (k : string) :
  In k (merged_keys df_turnover df_portfolio)
  <-> In (Some k) (map TurnoverRecord.Customer df_turnover)
      \/ In (Some k) (map PortfolioRecord.Customer df_portfolio).
Proof.
  unfold merged_keys.
  rewrite sort_keys_In, nodup_In, in_app_iff, !group_keys_In. reflexivity.
Qed.

Lemma merged_keys_NoDup df_turnover df_portfolio :
  NoDup (merged_keys df_turnover df_portfolio).
Proof. apply sort_keys_NoDup, NoDup_nodup. Qed.

Lemma merged_Customer df_turnover df_portfolio :
  map CustomerRollup.Customer (merged df_turnover df_portfolio)
  = merged_keys df_turnover df_portfolio.
Proof.
  unfold merged, merge_outer, merged_keys.
  rewrite cust_sales_keys, cust_portfolio_keys, !map_map. cbn.
  apply map_id.
Qed.

(** ** Outer join *)

Lemma merged_rows df_turnover df_portfolio :
  merged df_turnover df_portfolio
  = map (merged_row df_turnover df_portfolio)
        (merged_keys df_turnover df_portfolio).
Proof.
  unfold merged, merge_outer, merged_keys.
  rewrite cust_sales_keys, cust_portfolio_keys, map_map. reflexivity.
Qed.

Lemma lookup_cust_sales df_turnover (k : string) :
  lookup k (cust_sales df_turnover)
  = if in_dec string_dec k
         (group_keys (map TurnoverRecord.Customer df_turnover))
    then
      let group :=
        filter (fun r => has_key k (TurnoverRecord.Customer r))
               df_turnover in
      Some (sumQ (map TurnoverRecord.Turnover group),
            sumQ (map TurnoverRecord.Margin group))
    else None.
Proof.
  unfold cust_sales.
  exact (lookup_keyed
           (fun k' =>
              let group :=
                filter (fun r => has_key k' (TurnoverRecord.Customer r))
                       df_turnover in
              (sumQ (map TurnoverRecord.Turnover group),
               sumQ (map TurnoverRecord.Margin group)))
           k (group_keys (map TurnoverRecord.Customer df_turnover))).
Qed.

Lemma lookup_cust_portfolio df_portfolio (k : string) :
  lookup k (cust_portfolio df_portfolio)
  = if in_dec string_dec k
         (group_keys (map PortfolioRecord.Customer df_portfolio))
    then
      Some (sumQ (map PortfolioRecord.Net_amount
                      (filter (fun r => has_key k (PortfolioRecord.Customer r))
                              df_portfolio)))
    else None.
Proof.
  unfold cust_portfolio.
  exact (lookup_keyed
           (fun k' =>
              sumQ (map PortfolioRecord.Net_amount
                      (filter
                         (fun r => has_key k' (PortfolioRecord.Customer r))
                         df_portfolio)))
           k (group_keys (map PortfolioRecord.Customer df_portfolio))).
Qed.

Lemma merged_Totale df_turnover df_portfolio (row : CustomerRollup.t) :
  In row (merged df_turnover df_portfolio) ->
  CustomerRollup.Totale row
  = CustomerRollup.Turnover row + CustomerRollup.Portfolio row.
Proof.
  unfold merged. rewrite in_map_iff. intros (j & <- & _). reflexivity.
Qed.

(** C4.  Every customer key found in either sheet has a row in [merged].
    The fields of a side that lacks the key are zero: a customer found only
    in Source_Portfolio has Turnover = 0 and Margin = 0, one found only in
    Source_Turnover has Portfolio = 0; the fields of a side that has the key
    are the sums over its rows.  Every row has
    Totale = Turnover + Portfolio. *)
Theorem merged_outer_join (df_turnover : TurnoverFrame)
    (df_portfolio : PortfolioFrame) (k : string) :
  In (Some k) (map TurnoverRecord.Customer df_turnover)
  \/ In (Some k) (map PortfolioRecord.Customer df_portfolio) ->
  (exists row,
      In row (merged df_turnover df_portfolio)
      /\ CustomerRollup.Customer row = k
      /\ (~ In (Some k) (map TurnoverRecord.Customer df_turnover) ->
          CustomerRollup.Turnover row = 0 /\ CustomerRollup.Margin row = 0)
      /\ (~ In (Some k) (map PortfolioRecord.Customer df_portfolio) ->
          CustomerRollup.Portfolio row = 0)
      /\ (In (Some k) (map TurnoverRecord.Customer df_turnover) ->
          let group :=
            filter (fun r => has_key k (TurnoverRecord.Customer r))
                   df_turnover in
          CustomerRollup.Turnover row
          = sumQ (map TurnoverRecord.Turnover group)
          /\ CustomerRollup.Margin row
             = sumQ (map TurnoverRecord.Margin group))
      /\ (In (Some k) (map PortfolioRecord.Customer df_portfolio) ->
          CustomerRollup.Portfolio row
          = sumQ (map PortfolioRecord.Net_amount
                      (filter
                         (fun r => has_key k (PortfolioRecord.Customer r))
                         df_portfolio))))
  /\ (forall row,
        In row (merged df_turnover df_portfolio) ->
        CustomerRollup.Totale row
        = CustomerRollup.Turnover row + CustomerRollup.Portfolio row).
Proof.
  intros Hk. split; [ | apply merged_Totale ].
  exists (merged_row df_turnover df_portfolio k).
  split.
  { rewrite merged_rows. apply in_map, merged_keys_In, Hk. }
  split; [ reflexivity | ].
  unfold merged_row. cbn.
  rewrite lookup_cust_sales, lookup_cust_portfolio.
  destruct (in_dec string_dec k
              (group_keys (map TurnoverRecord.Customer df_turnover)))
    as [Ht | Ht];
    destruct (in_dec string_dec k
                (group_keys (map PortfolioRecord.Customer df_portfolio)))
    as [Hp | Hp];
    rewrite group_keys_In in Ht, Hp; cbn;
    repeat split; intros; auto; contradiction.
Qed.

(** ** Conservation of amounts *)

Lemma sumQ_map_plus {A : Type} (f g : A -> Q) (l : list A) :
  sumQ (map (fun a => f a + g a) l) == sumQ (map f l) + sumQ (map g l).
Proof.
  induction l as [ | a l IH]; cbn [map]; rewrite ?sumQ_nil, ?sumQ_cons.
  - ring.
  - rewrite IH. ring.
Qed.

Lemma sumQ_map_ext {A : Type} (f g : A -> Q) (l : list A) :
  (forall a, In a l -> f a == g a) ->
  sumQ (map f l) == sumQ (map g l).
Proof.
  induction l as [ | a l IH]; intros H; cbn [map]; [ reflexivity | ].
  rewrite !sumQ_cons.
  rewrite (H a) by (left; reflexivity).
  rewrite IH by (intros b Hb; apply H; right; exact Hb).
  reflexivity.
Qed.

Lemma sumQ_zeros {A : Type} (l : list A) :
  sumQ (map (fun _ => 0) l) == 0.
Proof.
  induction l as [ | a l IH]; cbn [map]; rewrite ?sumQ_nil, ?sumQ_cons.
  - reflexivity.
  - rewrite IH. ring.
Qed.

(** Over distinct keys, an amount attached to one key is counted once. *)
Lemma sumQ_one_key (k0 : string) (v : Q) (keys : list string) :
  NoDup keys -> In k0 keys ->
  sumQ (map (fun k => if String.eqb k k0 then v else 0) keys) == v.
Proof.
  induction 1 as [ | k keys Hout _ IH]; intros Hin; [ destruct Hin | ].
  cbn [map]. rewrite sumQ_cons.
  destruct (String.eqb_spec k k0) as [-> | Hne].
  - rewrite (sumQ_map_ext _ (fun _ => 0)).
    + rewrite sumQ_zeros. ring.
    + intros k Hk. destruct (String.eqb_spec k k0) as [-> | _];
        [ contradiction | reflexivity ].
  - destruct Hin as [E | Hin]; [ contradiction | ].
    rewrite IH by exact Hin. ring.
Qed.

(** Summing the group sums over all keys gives the sum of the column,
    when every row has a key. *)
Lemma sumQ_groups {A : Type} (key : A -> option string) (value : A -> Q)
    (keys : list string) (rows : list A) :
  NoDup keys ->
  (forall r, In r rows -> exists k, key r = Some k /\ In k keys) ->
  sumQ (map (fun k =>
               sumQ (map value (filter (fun r => has_key k (key r)) rows)))
            keys)
  == sumQ (map value rows).
Proof.
  intros Hnd. induction rows as [ | r rows IH]; intros Hkeys.
  - cbn [filter map]. rewrite sumQ_nil. apply sumQ_zeros.
  - destruct (Hkeys r (or_introl eq_refl)) as (k0 & Hk0 & Hin).
    rewrite (sumQ_map_ext _
               (fun k =>
                  (if String.eqb k k0 then value r else 0)
                  + sumQ (map value
                              (filter (fun r => has_key k (key r)) rows)))).
    + rewrite sumQ_map_plus, sumQ_one_key by assumption.
      rewrite IH by (intros r' Hr'; apply Hkeys; right; exact Hr').
      reflexivity.
    + intros k _. cbn [filter]. rewrite Hk0. cbn [has_key].
      destruct (String.eqb k k0); cbn [map]; rewrite ?sumQ_cons; ring.
Qed.

Lemma filter_absent_key {A : Type} (key : A -> option string) (k : string)
    (rows : list A) :
  ~ In (Some k) (map key rows) ->
  filter (fun r => has_key k (key r)) rows = [].
Proof.
  induction rows as [ | r rows IH]; intros Hout; [ reflexivity | ].
  cbn in *. destruct (key r) as [k' | ] eqn:Hr; cbn.
  - destruct (String.eqb_spec k k') as [-> | _].
    + exfalso. apply Hout. left. reflexivity.
    + apply IH. intros H. apply Hout. right. exact H.
  - apply IH. intros H. apply Hout. right. exact H.
Qed.

(** The cells of a merged row are the group sums, a missing group being an
    empty one. *)
Lemma merged_row_Turnover df_turnover df_portfolio (k : string) :
  CustomerRollup.Turnover (merged_row df_turnover df_portfolio k)
  = sumQ (map TurnoverRecord.Turnover
              (filter (fun r => has_key k (TurnoverRecord.Customer r))
                      df_turnover)).
Proof.
  unfold merged_row. cbn. rewrite lookup_cust_sales.
  destruct (in_dec string_dec k _) as [ | Hout]; [ reflexivity | ].
  rewrite group_keys_In in Hout. rewrite filter_absent_key by exact Hout.
  reflexivity.
Qed.

Lemma merged_row_Portfolio df_turnover df_portfolio (k : string) :
  CustomerRollup.Portfolio (merged_row df_turnover df_portfolio k)
  = sumQ (map PortfolioRecord.Net_amount
              (filter (fun r => has_key k (PortfolioRecord.Customer r))
                      df_portfolio)).
Proof.
  unfold merged_row. cbn. rewrite lookup_cust_portfolio.
  destruct (in_dec string_dec k _) as [ | Hout]; [ reflexivity | ].
  rewrite group_keys_In in Hout. rewrite filter_absent_key by exact Hout.
  reflexivity.
Qed.

Lemma keyed_in_merged_keys_turnover df_turnover df_portfolio :
  keyed TurnoverRecord.Customer df_turnover ->
  forall r, In r df_turnover ->
  exists k, TurnoverRecord.Customer r = Some k
            /\ In k (merged_keys df_turnover df_portfolio).
Proof.
  intros Hkeyed r Hr. unfold keyed in Hkeyed.
  rewrite Forall_forall in Hkeyed. specialize (Hkeyed r Hr).
  destruct (TurnoverRecord.Customer r) as [k | ] eqn:E; [ | congruence ].
  exists k. split; [ reflexivity | ].
  apply merged_keys_In. left. rewrite <- E. apply in_map, Hr.
Qed.

Lemma keyed_in_merged_keys_portfolio df_turnover df_portfolio :
  keyed PortfolioRecord.Customer df_portfolio ->
  forall r, In r df_portfolio ->
  exists k, PortfolioRecord.Customer r = Some k
            /\ In k (merged_keys df_turnover df_portfolio).
Proof.
  intros Hkeyed r Hr. unfold keyed in Hkeyed.
  rewrite Forall_forall in Hkeyed. specialize (Hkeyed r Hr).
  destruct (PortfolioRecord.Customer r) as [k | ] eqn:E; [ | congruence ].
  exists k. split; [ reflexivity | ].
  apply merged_keys_In. right. rewrite <- E. apply in_map, Hr.
Qed.

(** C9 as stated fails on float64 sheets.  With turnover rows
    (C, 0.1), (B, 0.2), (A, 0.3) and the portfolio row (A, 0.25), every row
    keyed, the [Totale] column of the merged frame is 0.55, 0.2, 0.1 and
    sums to 0.85, while [turnover_val + portfolio_val] is
    0.8500000000000001; nor is that float the arithmetic sum of the three
    [Totale] cells. *)
Lemma merged_total_rounds :
  keyed MachineRollup.t_Customer decimal_turnover
  /\ keyed MachineRollup.p_Customer decimal_portfolio
  /\ map MachineRollup.Totale
         (MachineRollup.merged decimal_turnover decimal_portfolio)
     = [0.55; 0.2; 0.1]%float
  /\ MachineRollup.Totale_sum decimal_turnover decimal_portfolio
     = Machine.NpFloat64 0.85%float
  /\ Machine.add (MachineRollup.turnover_val decimal_turnover)
                 (MachineRollup.portfolio_val decimal_portfolio)
     = Machine.NpFloat64 0.8500000000000001%float
  /\ 0.85%float <> 0.8500000000000001%float
  /\ represents 0.8500000000000001%float
                (arithmetic_sum [0.55; 0.2; 0.1]%float)
     = false
  /\ ~ conservation_claim.
Proof.
  assert (Ht : keyed MachineRollup.t_Customer decimal_turnover)
    by (repeat constructor; discriminate).
  assert (Hp : keyed MachineRollup.p_Customer decimal_portfolio)
    by (repeat constructor; discriminate).
  split; [ exact Ht | ]. split; [ exact Hp | ].
  split; [ vm_compute; reflexivity | ].
  split; [ vm_compute; reflexivity | ].
  split; [ vm_compute; reflexivity | ].
  split; [ intros H; float_discriminate H | ].
  split; [ vm_compute; reflexivity | ].
  intros Hclaim. specialize (Hclaim _ _ Ht Hp).
  apply (f_equal Machine.to_float64) in Hclaim.
  float_discriminate Hclaim.
Qed.

(** C9, amended (exact arithmetic).  When every row of both sheets
    carries a customer key, the [Totale] column of the whole merged table
    sums to [turnover_val + portfolio_val]: grouping, outer join and zero
    fill neither lose nor duplicate an amount.  The sums are read in exact
    arithmetic; on floats the two sides are added up in different orders
    and agree up to rounding only. *)
Theorem merged_conserves_total rng budget_annuale
    (df_turnover : TurnoverFrame) (df_portfolio : PortfolioFrame) :
  keyed TurnoverRecord.Customer df_turnover ->
  keyed PortfolioRecord.Customer df_portfolio ->
  exists k,
    snd (kpi rng budget_annuale (Some df_turnover, Some df_portfolio)) = inr k
    /\ sumQ (map CustomerRollup.Totale (merged df_turnover df_portfolio))
       == to_Q (turnover_val k) + to_Q (portfolio_val k).
Proof.
  intros Ht Hp. eexists. split; [ reflexivity | ].
  cbn [turnover_val portfolio_val]. rewrite !to_Q_Series_sum.
  rewrite merged_rows, map_map.
  rewrite (sumQ_map_ext _
             (fun k =>
                sumQ (map TurnoverRecord.Turnover
                        (filter
                           (fun r => has_key k (TurnoverRecord.Customer r))
                           df_turnover))
                + sumQ (map PortfolioRecord.Net_amount
                          (filter
                             (fun r => has_key k (PortfolioRecord.Customer r))
                             df_portfolio)))).
  - rewrite sumQ_map_plus.
    rewrite (sumQ_groups TurnoverRecord.Customer TurnoverRecord.Turnover)
      by (try apply merged_keys_NoDup;
          apply keyed_in_merged_keys_turnover; exact Ht).
    rewrite (sumQ_groups PortfolioRecord.Customer PortfolioRecord.Net_amount)
      by (try apply merged_keys_NoDup;
          apply keyed_in_merged_keys_portfolio; exact Hp).
    reflexivity.
  - intros k _.
    rewrite <- (merged_row_Turnover df_turnover df_portfolio k).
    rewrite <- (merged_row_Portfolio df_turnover df_portfolio k).
    reflexivity.
Qed.

(** ** Top ten *)

Lemma insert_desc_Permutation (x : CustomerRollup.t) l :
  Permutation (x :: l) (insert_desc x l).
Proof.
  induction l as [ | y l IH]; cbn; [ reflexivity | ].
  destruct (Qle_bool _ _); [ reflexivity | ].
  rewrite perm_swap. apply perm_skip, IH.
Qed.

Lemma stable_sort_desc_Permutation (df : list CustomerRollup.t) :
  Permutation df (stable_sort_desc df).
Proof.
  induction df as [ | x df IH]; cbn; [ reflexivity | ].
  rewrite <- insert_desc_Permutation. apply perm_skip, IH.
Qed.

Lemma insert_desc_sorted (x : CustomerRollup.t) l :
  StronglySorted descending l -> StronglySorted descending (insert_desc x l).
Proof.
  induction 1 as [ | y l Hl IH Hy]; cbn.
  - constructor; constructor.
  - destruct (Qle_bool (CustomerRollup.Totale y) (CustomerRollup.Totale x))
      eqn:Hle.
    + apply Qle_bool_iff in Hle.
      constructor; [ constructor; assumption | ].
      constructor; [ exact Hle | ].
      apply Forall_impl with (2 := Hy). intros z Hz. unfold descending in *.
      apply Qle_trans with (1 := Hz), Hle.
    + constructor; [ exact IH | ].
      rewrite <- insert_desc_Permutation. constructor; [ | exact Hy ].
      unfold descending. apply Qlt_le_weak, Qnot_le_lt.
      intros H. apply Qle_bool_iff in H. congruence.
Qed.

Lemma stable_sort_desc_sorted (df : list CustomerRollup.t) :
  StronglySorted descending (stable_sort_desc df).
Proof.
  induction df as [ | x df IH]; cbn; [ constructor | ].
  apply insert_desc_sorted, IH.
Qed.

(** The stable sort is one of the results [sort_values] may give. *)
Lemma stable_sort_desc_admissible (df : list CustomerRollup.t) :
  sort_values df (stable_sort_desc df).
Proof.
  split; [ apply stable_sort_desc_Permutation
         | apply stable_sort_desc_sorted ].
Qed.

Lemma StronglySorted_app_inv {A : Type} (R : A -> A -> Prop) (l1 l2 : list A) :
  StronglySorted R (l1 ++ l2) ->
  StronglySorted R l1
  /\ (forall a b, In a l1 -> In b l2 -> R a b).
Proof.
  induction l1 as [ | x l1 IH]; cbn; intros H.
  - split; [ constructor | intros a b [] ].
  - apply StronglySorted_inv in H. destruct H as [Hs Hx].
    destruct (IH Hs) as [Hs1 Hcross].
    apply Forall_app in Hx. destruct Hx as [Hx1 Hx2].
    split; [ constructor; assumption | ].
    intros a b [<- | Ha] Hb; [ | apply Hcross; assumption ].
    rewrite Forall_forall in Hx2. apply Hx2, Hb.
Qed.

(** C3 as stated fails on the tie order.  Eighteen customers have a
    [Totale] of 2, 1, 2, 1, ... down the merged frame.  A stable sort
    lists the nine customers at 2 in their order, then C02.  The call of
    the script, with numpy's quicksort as modelled in [MachineRollup],
    lists C13 second and C16 tenth. *)
Lemma top_10_tie_order :
  option_map (map MachineRollup.Customer)
             (MachineRollup.top_10 tied_turnover tied_portfolio)
  = Some ["C01"; "C13"; "C03"; "C17"; "C05";
          "C07"; "C15"; "C09"; "C11"; "C16"]
  /\ option_map (map MachineRollup.Totale)
                (MachineRollup.top_10 tied_turnover tied_portfolio)
     = Some [2; 2; 2; 2; 2; 2; 2; 2; 2; 1]%float
  /\ map MachineRollup.Customer
         (firstn 10 (MachineRollup.stable_sort_desc
                       (MachineRollup.merged tied_turnover tied_portfolio)))
     = ["C01"; "C03"; "C05"; "C07"; "C09";
        "C11"; "C13"; "C15"; "C17"; "C02"]
  /\ ~ stable_top_10_claim.
Proof.
  split; [ vm_compute; reflexivity | ].
  split; [ vm_compute; reflexivity | ].
  split; [ vm_compute; reflexivity | ].
  intros Hclaim.
  destruct (MachineRollup.top_10 tied_turnover tied_portfolio)
    as [out | ] eqn:E; [ | vm_compute in E; discriminate E ].
  destruct (Hclaim tied_turnover tied_portfolio out E) as [_ Heq].
  assert (Hout : option_map (map MachineRollup.Customer)
                            (MachineRollup.top_10 tied_turnover
                                                  tied_portfolio)
                 = Some ["C01"; "C13"; "C03"; "C17"; "C05";
                         "C07"; "C15"; "C09"; "C11"; "C16"])
    by (vm_compute; reflexivity).
  rewrite E, Heq in Hout. vm_compute in Hout. discriminate Hout.
Qed.

(** C3, amended.  Whatever order [sort_values] gives to ties, [top_10] has
    at most ten rows, exactly ten when the merged table has ten or more;
    its [Totale] is non-increasing; its rows are rows of the merged table,
    and every row left out has a [Totale] no greater than any row kept. *)
Theorem top_10_sorted_at_most_10 (df_turnover : TurnoverFrame)
    (df_portfolio : PortfolioFrame) (out : list CustomerRollup.t) :
  top_10 (merged df_turnover df_portfolio) out ->
  (length out <= 10)%nat
  /\ length out
     = Nat.min 10 (length (merged df_turnover df_portfolio))
  /\ StronglySorted descending out
  /\ exists rest,
       Permutation (merged df_turnover df_portfolio) (out ++ rest)
       /\ forall kept left_out,
            In kept out -> In left_out rest -> descending kept left_out.
Proof.
  intros (sorted & [Hperm Hsorted] & ->).
  rewrite <- (firstn_skipn 10 sorted) in Hsorted.
  apply StronglySorted_app_inv in Hsorted. destruct Hsorted as [Hs Hcross].
  split; [ apply firstn_le_length | ].
  split; [ rewrite length_firstn, (Permutation_length Hperm); reflexivity | ].
  split; [ exact Hs | ].
  exists (skipn 10 sorted). split; [ | exact Hcross ].
  rewrite firstn_skipn. exact Hperm.
Qed.

(** The stable order is among the admissible results. *)
Lemma top_10_stable_admissible (df : list CustomerRollup.t) :
  top_10 df (firstn 10 (stable_sort_desc df)).
Proof.
  exists (stable_sort_desc df). split; [ | reflexivity ].
  apply stable_sort_desc_admissible.
Qed.

(** ** The properties on sample inputs *)

Lemma kpi_sums_all_rows_witness :
  (exists k k',
      snd (kpi sample_rng 2500000
               (Some example_turnover, Some example_portfolio))
      = inr k
      /\ snd (kpi sample_rng 2500000
                  (Some (rev example_turnover), Some (rev example_portfolio)))
         = inr k'
      /\ turnover_val k
         = Series_sum (map TurnoverRecord.Turnover example_turnover)
      /\ portfolio_val k
         = Series_sum (map PortfolioRecord.Net_amount example_portfolio)
      /\ to_Q (turnover_val k)
         = sumQ (map TurnoverRecord.Turnover example_turnover)
      /\ to_Q (portfolio_val k)
         = sumQ (map PortfolioRecord.Net_amount example_portfolio)
      /\ to_Q (turnover_val k') == to_Q (turnover_val k)
      /\ to_Q (portfolio_val k') == to_Q (portfolio_val k))
  /\ Machine.Series_sum (Machine.Int64Column [100; 200]%Z)
     = Machine.NpInt64 (Machine.wrap64 (fold_right Z.add 0%Z [100; 200]%Z))
  /\ Machine.Series_sum (Machine.Int64Column [200; 100]%Z)
     = Machine.Series_sum (Machine.Int64Column [100; 200]%Z)
  /\ (in_int64 (fold_right Z.add 0%Z [100; 200]%Z) ->
      Machine.Series_sum (Machine.Int64Column [100; 200]%Z)
      = Machine.NpInt64 (fold_right Z.add 0%Z [100; 200]%Z)).
Proof.
  apply (kpi_sums_all_rows sample_rng 2500000
           example_turnover (rev example_turnover)
           example_portfolio (rev example_portfolio)
           [100; 200]%Z [200; 100]%Z).
  - apply perm_swap.
  - apply perm_swap.
  - apply perm_swap.
Defined.

Lemma merged_outer_join_witness :
  exists row,
    In row (merged example_turnover example_portfolio)
    /\ CustomerRollup.Customer row = "C"
    /\ CustomerRollup.Turnover row = 0
    /\ CustomerRollup.Margin row = 0
    /\ CustomerRollup.Portfolio row = 30 + 0
    /\ CustomerRollup.Totale row
       = CustomerRollup.Turnover row + CustomerRollup.Portfolio row.
Proof.
  destruct (merged_outer_join example_turnover example_portfolio "C")
    as [(row & Hin & Hc & Hzero & _ & _ & Hp) Htot].
  - right. cbn. right. left. reflexivity.
  - exists row.
    destruct Hzero as [Ht Hm].
    + cbn. intros [H | [H | []]]; discriminate H.
    + repeat split; try assumption.
      * apply Hp. cbn. right. left. reflexivity.
      * apply Htot, Hin.
Defined.

Lemma example_keyed :
  keyed TurnoverRecord.Customer example_turnover
  /\ keyed PortfolioRecord.Customer example_portfolio.
Proof. split; repeat constructor; discriminate. Qed.

Lemma merged_conserves_total_witness :
  exists k,
    snd (kpi sample_rng 2500000 (Some example_turnover, Some example_portfolio))
    = inr k
    /\ sumQ (map CustomerRollup.Totale
                 (merged example_turnover example_portfolio))
       == to_Q (turnover_val k) + to_Q (portfolio_val k).
Proof.
  apply (merged_conserves_total sample_rng 2500000
           example_turnover example_portfolio);
    apply example_keyed.
Defined.

Lemma top_10_sorted_at_most_10_witness :
  let df := merged twelve_turnover [] in
  let out := firstn 10 (stable_sort_desc df) in
  length df = 12%nat
  /\ map CustomerRollup.Customer out
     = ["C07"; "C10"; "C12"; "C09"; "C11"; "C08"; "C05"; "C03"; "C06"; "C01"]
  /\ (length out <= 10)%nat
  /\ length out = Nat.min 10 (length df)
  /\ StronglySorted descending out.
Proof.
  split; [ vm_compute; reflexivity | ].
  split; [ vm_compute; reflexivity | ].
  destruct (top_10_sorted_at_most_10 twelve_turnover [] _
              (top_10_stable_admissible (merged twelve_turnover [])))
    as (Hlen & Hmin & Hsorted & _).
  exact (conj Hlen (conj Hmin Hsorted)).
Defined.

(** * Further properties of the script *)

(** ** One run, end to end *)

Lemma dashboard_render rng budget_annuale uploaded_file :
  dashboard rng budget_annuale uploaded_file
  = ((fst (load_data uploaded_file)
      ++ fst (kpi rng budget_annuale (snd (load_data uploaded_file))))%list,
     render rng budget_annuale (snd (load_data uploaded_file))).
Proof.
  unfold dashboard, render.
  destruct (load_data uploaded_file) as [shown loaded]. cbn [fst snd].
  destruct (kpi rng budget_annuale loaded) as [shown' k]. reflexivity.
Qed.

Lemma kpi_demo_shown rng budget_annuale :
  fst (kpi rng budget_annuale (None, None)) = [demo_warning].
Proof. reflexivity. Qed.

Lemma kpi_real_shown rng budget_annuale df_turnover df_portfolio :
  fst (kpi rng budget_annuale (Some df_turnover, Some df_portfolio)) = [].
Proof. reflexivity. Qed.

(** A file that fails to parse is treated as no file: the run shows the
    read error and then the demo warning, and hands the widgets exactly
    what the run without a file hands them. *)
Theorem failed_upload_falls_back rng budget_annuale (file : UploadedFile) :
  (forall df_turnover df_portfolio,
      ~ (read_Source_Turnover file = inr df_turnover /\
         read_Source_Portfolio file = inr df_portfolio)) ->
  exists e,
    (read_Source_Turnover file = inl e \/ read_Source_Portfolio file = inl e)
    /\ fst (dashboard rng budget_annuale (Some file))
       = [st_error (read_error_message e); demo_warning]
    /\ snd (dashboard rng budget_annuale (Some file))
       = snd (dashboard rng budget_annuale None).
Proof.
  intros Hfail.
  destruct (load_data_cases (Some file))
    as [(file' & t & p & Hf & Ht & Hp & _)
       | [(file' & e & Hf & He & Hload) | [Hf _]]];
    try discriminate Hf; injection Hf as <-.
  - exfalso. apply (Hfail t p). split; assumption.
  - exists e. split; [ exact He | ].
    rewrite !dashboard_render, Hload. cbn [load_data fst snd].
    rewrite kpi_demo_shown. split; reflexivity.
Qed.

Lemma failed_upload_falls_back_witness :
  exists e,
    (read_Source_Turnover truncated_file = inl e
     \/ read_Source_Portfolio truncated_file = inl e)
    /\ fst (dashboard sample_rng 2500000 (Some truncated_file))
       = [st_error (read_error_message e); demo_warning]
    /\ snd (dashboard sample_rng 2500000 (Some truncated_file))
       = snd (dashboard sample_rng 2500000 None).
Proof.
  apply (failed_upload_falls_back sample_rng 2500000 truncated_file).
  intros df_turnover df_portfolio [_ Hp]. discriminate Hp.
Defined.

(** The run shows no message at all exactly when a file was supplied and
    both sheets were read. *)
Theorem no_message_iff_parsed rng budget_annuale uploaded_file :
  fst (dashboard rng budget_annuale uploaded_file) = []
  <-> exists file df_turnover df_portfolio,
        uploaded_file = Some file
        /\ read_Source_Turnover file = inr df_turnover
        /\ read_Source_Portfolio file = inr df_portfolio.
Proof.
  rewrite dashboard_render. cbn [fst].
  destruct (load_data_cases uploaded_file)
    as [(file & t & p & Hf & Ht & Hp & Hload)
       | [(file & e & Hf & He & Hload) | [Hf Hload]]];
    rewrite Hload; cbn [fst snd].
  - rewrite kpi_real_shown. split; [ intros _ | reflexivity ].
    exists file, t, p. auto.
  - split; [ discriminate | ].
    intros (file' & t & p & Hf' & Ht & Hp). exfalso.
    rewrite Hf in Hf'. injection Hf' as <-.
    destruct He as [He | He]; congruence.
  - rewrite kpi_demo_shown. split; [ discriminate | ].
    intros (file' & _ & _ & Hf' & _). congruence.
Qed.

(** ** The budget delta *)

(** Past the KPI stage a run has one more step that may raise before the
    call of line 158, which always does. *)
Lemma render_outcome rng budget_annuale loaded (k : Kpi) :
  snd (kpi rng budget_annuale loaded) = inr k ->
  render rng budget_annuale loaded
  = (_ <- percent_vs_budget (total_forecast k) budget_annuale ;;
     raise (AttributeError
              "module 'plotly.express' has no attribute 'donut'")).
Proof.
  intros Hk. unfold render, px_donut, raise. rewrite Hk. unfold bind.
  destruct (percent_vs_budget _ _); reflexivity.
Qed.




(** For a positive budget the third card shows a finite percentage, and
    it is non-negative exactly when the forecast reaches the budget. *)
Theorem percent_vs_budget_sign (total_forecast : number) (budget_annuale : Z) :
  (0 < budget_annuale)%Z ->
  exists x,
    percent_vs_budget total_forecast budget_annuale = ret (Finite x)
    /\ (0 <= x <-> inject_Z budget_annuale <= to_Q total_forecast).
Proof.
  intros Hpos.
  assert (Hne : budget_annuale <> 0%Z) by lia.
  assert (Hb : inject_Z 0 < inject_Z budget_annuale)
    by (rewrite <- Zlt_Qlt; exact Hpos).
  change (inject_Z 0) with 0 in Hb.
  assert (Hb' : ~ inject_Z budget_annuale == 0)
    by (intros E; rewrite E in Hb; exact (Qlt_irrefl 0 Hb)).
  eexists. split; [ apply percent_vs_budget_nonzero, Hne | ].
  set (t := to_Q total_forecast). set (b := inject_Z budget_annuale) in *.
  assert (Hshape : (t / b - 1) * 100 == (t - b) * (100 / b))
    by (field; exact Hb').
  rewrite Hshape.
  assert (Hc : 0 < 100 / b).
  { apply Qlt_shift_div_l; [ exact Hb | ]. rewrite Qmult_0_l. reflexivity. }
  rewrite <- (Qmult_0_l (100 / b)), (Qmult_le_r _ _ _ Hc).
  rewrite (Qle_minus_iff b t). reflexivity.
Qed.

Lemma percent_vs_budget_sign_witness :
  exists x,
    percent_vs_budget (PyInt 1980000) 2500000 = ret (Finite x)
    /\ (0 <= x <-> inject_Z 2500000 <= to_Q (PyInt 1980000)).
Proof.
  apply (percent_vs_budget_sign (PyInt 1980000) 2500000). reflexivity.
Defined.

(** ** The chart frame *)

Lemma length_cumsum_from (l : list Q) (acc : Q) :
  length (cumsum_from acc l) = length l.
Proof.
  revert acc. induction l as [ | x l IH]; intros acc; cbn [cumsum_from length];
    [ reflexivity | ].
  rewrite IH. reflexivity.
Qed.

Lemma demo_values_length (draws : list Z) :
  length (demo_values draws) = S (length draws).
Proof.
  unfold demo_values. rewrite length_app, length_map. cbn. lia.
Qed.

Lemma monthly_vals_length (weights : list Q) (turnover_val : Q) :
  length (monthly_vals weights turnover_val) = S (length weights).
Proof.
  unfold monthly_vals, normalize. rewrite length_app, !length_map. cbn. lia.
Qed.

Lemma demo_values_last (draws : list Z) (d : Q) :
  nth (length draws) (demo_values draws) d = 0.
Proof.
  unfold demo_values.
  rewrite <- (length_map inject_Z draws). apply nth_middle.
Qed.

Lemma monthly_vals_last (weights : list Q) (turnover_val d : Q) :
  nth (length weights) (monthly_vals weights turnover_val) d = 0.
Proof.
  unfold monthly_vals, normalize.
  rewrite <- (length_map (fun w => w / sumQ weights) weights).
  rewrite <- (length_map (fun w => w * turnover_val)
                (map (fun w => w / sumQ weights) weights)).
  apply nth_middle.
Qed.

(** What the KPI stage leaves in [df_chart], in either branch. *)
Lemma kpi_df_chart rng budget_annuale uploaded_file :
  exists k values,
    snd (kpi rng budget_annuale (snd (load_data uploaded_file))) = inr k
    /\ df_chart k = (months, values)
    /\ budget_mensile k = inject_Z budget_annuale / 12
    /\ length values = 12%nat
    /\ nth 11 values 1 = 0.
Proof.
  destruct (load_data_pair uploaded_file)
    as [(df_turnover & df_portfolio & Hl) | Hl]; rewrite Hl;
    unfold kpi; cbn [snd]; do 2 eexists;
    (split; [ reflexivity | ]); cbn [df_chart budget_mensile];
    (split; [ reflexivity | ]); (split; [ reflexivity | ]).
  - rewrite monthly_vals_length, draw_length. split; [ reflexivity | ].
    rewrite <- (draw_length Machine.rand_exact 11) at 1.
    apply monthly_vals_last.
  - rewrite demo_values_length, draw_length. split; [ reflexivity | ].
    rewrite <- (draw_length (randint rng) 11) at 1. apply demo_values_last.
Qed.

(** Whatever was uploaded, the chart frame has twelve rows in each of its
    five columns, one per month label, and the December cell of
    [Fatturato] is zero. *)
Theorem chart_frame_shape rng budget_annuale uploaded_file :
  exists k,
    snd (kpi rng budget_annuale (snd (load_data uploaded_file))) = inr k
    /\ MonthlyPoints.Mese (chart k) = months
    /\ length (MonthlyPoints.Fatturato (chart k)) = 12%nat
    /\ length (MonthlyPoints.Budget (chart k)) = 12%nat
    /\ length (MonthlyPoints.Cumulativo_Fatturato (chart k)) = 12%nat
    /\ length (MonthlyPoints.Cumulativo_Budget (chart k)) = 12%nat
    /\ nth 11 (MonthlyPoints.Fatturato (chart k)) 1 = 0.
Proof.
  destruct (kpi_df_chart rng budget_annuale uploaded_file)
    as (k & values & Hk & Hdf & _ & Hlen & Hdec).
  exists k. split; [ exact Hk | ].
  unfold chart. rewrite Hdf.
  cbn [MonthlyPoints.Mese MonthlyPoints.Fatturato MonthlyPoints.Budget
       MonthlyPoints.Cumulativo_Fatturato MonthlyPoints.Cumulativo_Budget].
  unfold cumsum. rewrite !length_cumsum_from, length_map.
  repeat split; try assumption; reflexivity.
Qed.

Lemma sumQ_constant {A : Type} (c : Q) (l : list A) :
  sumQ (map (fun _ => c) l) == inject_Z (Z.of_nat (length l)) * c.
Proof.
  induction l as [ | a l IH]; cbn [map length];
    rewrite ?sumQ_nil, ?sumQ_cons.
  - cbn. ring.
  - rewrite IH, Nat2Z.inj_succ. unfold Z.succ. rewrite inject_Z_plus. ring.
Qed.

(** The budget line: every month carries [budget_annuale / 12], the
    running budget at month [i + 1] is [i + 1] times that, and at month 12
    it is [budget_annuale] itself. *)
Theorem cumulative_budget rng budget_annuale uploaded_file (i : nat) :
  (i < 12)%nat ->
  exists k,
    snd (kpi rng budget_annuale (snd (load_data uploaded_file))) = inr k
    /\ nth i (MonthlyPoints.Budget (chart k)) 0
       = inject_Z budget_annuale / 12
    /\ nth i (MonthlyPoints.Cumulativo_Budget (chart k)) 0
       == inject_Z (Z.of_nat (S i)) * (inject_Z budget_annuale / 12)
    /\ nth 11 (MonthlyPoints.Cumulativo_Budget (chart k)) 0
       == inject_Z budget_annuale.
Proof.
  intros Hi.
  destruct (kpi_df_chart rng budget_annuale uploaded_file)
    as (k & values & Hk & Hdf & Hbm & _ & _).
  exists k. split; [ exact Hk | ].
  unfold chart. rewrite Hdf, Hbm.
  cbn [MonthlyPoints.Budget MonthlyPoints.Cumulativo_Budget].
  set (c := inject_Z budget_annuale / 12).
  assert (Hcum : forall j, (j < 12)%nat ->
            nth j (cumsum (map (fun _ => c) months)) 0
            == inject_Z (Z.of_nat (S j)) * c).
  { intros j Hj. unfold cumsum.
    rewrite nth_cumsum_from by (rewrite length_map; exact Hj).
    rewrite firstn_map, (sumQ_constant c), length_firstn.
    replace (Nat.min (S j) (length months)) with (S j)
      by (change (length months) with 12%nat; lia).
    ring. }
  split; [ | split ].
  - clear Hcum. do 12 (destruct i as [ | i]; [ reflexivity | ]). lia.
  - apply Hcum, Hi.
  - rewrite Hcum by lia. unfold c.
    change (inject_Z (Z.of_nat 12)) with 12. field.
Qed.

Lemma cumulative_budget_witness :
  exists k,
    snd (kpi sample_rng 2500000 (snd (load_data None))) = inr k
    /\ nth 5 (MonthlyPoints.Budget (chart k)) 0 = inject_Z 2500000 / 12
    /\ nth 5 (MonthlyPoints.Cumulativo_Budget (chart k)) 0
       == inject_Z (Z.of_nat 6) * (inject_Z 2500000 / 12)
    /\ nth 11 (MonthlyPoints.Cumulativo_Budget (chart k)) 0
       == inject_Z 2500000.
Proof.
  apply (cumulative_budget sample_rng 2500000 None 5). lia.
Defined.

Lemma sumQ_bounds (lo hi : Q) (l : list Q) :
  Forall (fun x => lo <= x /\ x <= hi) l ->
  inject_Z (Z.of_nat (length l)) * lo <= sumQ l
  /\ sumQ l <= inject_Z (Z.of_nat (length l)) * hi.
Proof.
  induction 1 as [ | x l [Hlo Hhi] _ [IHlo IHhi]]; cbn [length];
    rewrite ?sumQ_nil, ?sumQ_cons.
  - cbn. rewrite !Qmult_0_l. split; apply Qle_refl.
  - rewrite Nat2Z.inj_succ. unfold Z.succ. rewrite inject_Z_plus.
    split.
    + setoid_replace ((inject_Z (Z.of_nat (length l)) + inject_Z 1) * lo)
        with (lo + inject_Z (Z.of_nat (length l)) * lo) by ring.
      apply Qplus_le_compat; assumption.
    + setoid_replace ((inject_Z (Z.of_nat (length l)) + inject_Z 1) * hi)
        with (hi + inject_Z (Z.of_nat (length l)) * hi) by ring.
      apply Qplus_le_compat; assumption.
Qed.

(** The demo series is not tied to the demo KPI: with the eleven draws in
    the range of [randint(50000, 200000)], the running [Fatturato] at month
    12 is the sum of the draws, somewhere between 550000 and 2199989,
    whatever [turnover_val] says. *)
Theorem demo_chart_total rng budget_annuale :
  (forall i, (i < 11)%nat -> (50000 <= randint rng i < 200000)%Z) ->
  exists k,
    snd (kpi rng budget_annuale (snd (load_data None))) = inr k
    /\ turnover_val k = PyInt 1530000
    /\ MonthlyPoints.Fatturato (chart k)
       = (map inject_Z (draw (randint rng) 11) ++ [0])%list
    /\ nth 11 (MonthlyPoints.Cumulativo_Fatturato (chart k)) 0
       == sumQ (map inject_Z (draw (randint rng) 11))
    /\ 550000 <= nth 11 (MonthlyPoints.Cumulativo_Fatturato (chart k)) 0
    /\ nth 11 (MonthlyPoints.Cumulativo_Fatturato (chart k)) 0 <= 2199989.
Proof.
  intros Hrange. eexists. split; [ reflexivity | ].
  split; [ reflexivity | ].
  unfold chart.
  cbn [df_chart MonthlyPoints.Fatturato MonthlyPoints.Cumulativo_Fatturato].
  set (draws := draw (randint rng) 11).
  assert (Hlen : length (map inject_Z draws) = 11%nat)
    by (rewrite length_map; apply draw_length).
  assert (Hcum : nth 11 (cumsum (demo_values draws)) 0
                 == sumQ (map inject_Z draws)).
  { unfold cumsum, demo_values.
    rewrite nth_cumsum_from by (rewrite length_app, Hlen; cbn; lia).
    rewrite firstn_all2 by (rewrite length_app, Hlen; cbn; lia).
    rewrite sumQ_app, sumQ_cons, sumQ_nil. ring. }
  split; [ reflexivity | ]. split; [ exact Hcum | ].
  assert (Hb : Forall (fun x => 50000 <= x /\ x <= 199999)
                 (map inject_Z draws)).
  { apply Forall_map. apply draw_Forall. intros i Hi.
    destruct (Hrange i Hi) as [Hlo Hhi].
    split.
    - change 50000 with (inject_Z 50000). rewrite <- Zle_Qle. exact Hlo.
    - change 199999 with (inject_Z 199999). rewrite <- Zle_Qle. lia. }
  apply sumQ_bounds in Hb. rewrite Hlen in Hb. destruct Hb as [Hlo Hhi].
  rewrite Hcum. split.
  - apply Qle_trans with (2 := Hlo). apply Qle_lteq. right. reflexivity.
  - apply Qle_trans with (1 := Hhi). apply Qle_lteq. right. reflexivity.
Qed.

Lemma sample_rng_in_range :
  forall i, (i < 11)%nat -> (50000 <= randint sample_rng i < 200000)%Z.
Proof.
  intros i Hi. do 11 (destruct i as [ | i]; [ cbn; lia | ]). lia.
Qed.

Lemma demo_chart_total_witness :
  exists k,
    snd (kpi sample_rng 2500000 (snd (load_data None))) = inr k
    /\ turnover_val k = PyInt 1530000
    /\ nth 11 (MonthlyPoints.Cumulativo_Fatturato (chart k)) 0 == 1243000.
Proof.
  destruct (demo_chart_total sample_rng 2500000 sample_rng_in_range)
    as (k & Hk & Ht & _ & Hcum & _).
  exists k. split; [ exact Hk | ]. split; [ exact Ht | ].
  rewrite Hcum. reflexivity.
Defined.

(** The weights of the real-data branch do not vary from run to run:
    [np.random.seed(42)] followed by [np.random.rand(11)] draws these
    eleven floats. *)
Theorem rand_seed_42 :
  Machine.rand 11
  = [0.3745401188473625; 0.9507143064099162; 0.7319939418114051;
     0.5986584841970366; 0.15601864044243652; 0.15599452033620265;
     0.05808361216819946; 0.8661761457749352; 0.6011150117432088;
     0.7080725777960455; 0.020584494295802447]%float.
Proof. vm_compute. reflexivity. Qed.

Lemma element_le_sumQ (x : Q) (l : list Q) :
  Forall (fun w => 0 <= w) l -> In x l -> x <= sumQ l.
Proof.
  induction 1 as [ | y l Hy Hl IH]; intros Hin; [ destruct Hin | ].
  assert (Hsum : 0 <= sumQ l).
  { clear IH Hin. induction Hl as [ | z l Hz _ IHl];
      rewrite ?sumQ_nil, ?sumQ_cons; [ apply Qle_refl | ].
    rewrite <- (Qplus_0_r 0). apply Qplus_le_compat; assumption. }
  rewrite sumQ_cons. destruct Hin as [-> | Hin].
  - rewrite <- (Qplus_0_r x) at 1.
    apply Qplus_le_compat; [ apply Qle_refl | exact Hsum ].
  - rewrite <- (Qplus_0_l x).
    apply Qplus_le_compat; [ exact Hy | apply IH, Hin ].
Qed.

(** With real data and a non-negative turnover total, no month is
    allocated a negative amount or more than the whole [turnover_val]. *)
Theorem monthly_allocation_bounds rng budget_annuale
    (df_turnover : TurnoverFrame) (df_portfolio : PortfolioFrame) :
  0 <= sumQ (map TurnoverRecord.Turnover df_turnover) ->
  exists k,
    snd (kpi rng budget_annuale (Some df_turnover, Some df_portfolio)) = inr k
    /\ Forall (fun v => 0 <= v /\ v <= to_Q (turnover_val k))
              (MonthlyPoints.Fatturato (chart k)).
Proof.
  intros Htotal. eexists. split; [ reflexivity | ].
  unfold chart. cbn [df_chart MonthlyPoints.Fatturato turnover_val].
  rewrite to_Q_Series_sum.
  set (t := sumQ (map TurnoverRecord.Turnover df_turnover)) in *.
  set (raw := draw Machine.rand_exact 11).
  pose proof rand_exact_positive as Hraw. fold raw in Hraw.
  assert (Hne : raw <> []).
  { intros E. pose proof (draw_length Machine.rand_exact 11) as Hlen.
    fold raw in Hlen. rewrite E in Hlen. discriminate Hlen. }
  pose proof (normalize_positive raw Hne Hraw) as Hnorm.
  assert (Hsum : sumQ (normalize raw) == 1).
  { apply sumQ_normalize. intros E.
    pose proof (sumQ_positive raw Hne Hraw) as H. rewrite E in H.
    exact (Qlt_irrefl 0 H). }
  unfold monthly_vals. apply Forall_app. split.
  - apply Forall_map, Forall_forall. intros w Hw.
    assert (Hw0 : 0 <= w).
    { rewrite Forall_forall in Hnorm. apply Qlt_le_weak, Hnorm, Hw. }
    assert (Hw1 : w <= 1).
    { rewrite <- Hsum. apply element_le_sumQ; [ | exact Hw ].
      apply Forall_impl with (2 := Hnorm). intros a. apply Qlt_le_weak. }
    split.
    + apply Qmult_le_0_compat; assumption.
    + rewrite <- (Qmult_1_l t) at 2. apply Qmult_le_compat_r; assumption.
  - repeat constructor; [ apply Qle_refl | exact Htotal ].
Qed.

Lemma monthly_allocation_bounds_witness :
  exists k,
    snd (kpi sample_rng 2500000 (Some example_turnover, Some example_portfolio))
    = inr k
    /\ Forall (fun v => 0 <= v /\ v <= to_Q (turnover_val k))
              (MonthlyPoints.Fatturato (chart k)).
Proof.
  apply (monthly_allocation_bounds sample_rng 2500000
           example_turnover example_portfolio).
  cbn. discriminate.
Defined.

(** ** The merged table *)

Lemma dropna_length {A : Type} (key : A -> option string) (rows : list A) :
  length (dropna (map key rows)) = length (with_key key rows).
Proof.
  unfold with_key. induction rows as [ | r rows IH]; [ reflexivity | ].
  cbn [map dropna filter]. destruct (key r); cbn [length]; rewrite IH;
    reflexivity.
Qed.

(** The merged table has one row per customer: its [Customer] column has
    no duplicate, and holds exactly the keys that occur in a row of either
    sheet.  A row without a customer adds no row to the table. *)
Theorem merged_one_row_per_customer (df_turnover : TurnoverFrame)
    (df_portfolio : PortfolioFrame) :
  NoDup (map CustomerRollup.Customer (merged df_turnover df_portfolio))
  /\ (forall k,
        In k (map CustomerRollup.Customer (merged df_turnover df_portfolio))
        <-> In (Some k) (map TurnoverRecord.Customer df_turnover)
            \/ In (Some k) (map PortfolioRecord.Customer df_portfolio))
  /\ (length (merged df_turnover df_portfolio)
      <= length (with_key TurnoverRecord.Customer df_turnover)
         + length (with_key PortfolioRecord.Customer df_portfolio))%nat.
Proof.
  rewrite merged_Customer.
  split; [ apply merged_keys_NoDup | ].
  split; [ intros k; apply merged_keys_In | ].
  rewrite <- (length_map CustomerRollup.Customer), merged_Customer.
  apply Nat.le_trans
    with (length (dropna (map TurnoverRecord.Customer df_turnover)
                  ++ dropna (map PortfolioRecord.Customer df_portfolio))).
  - apply NoDup_incl_length; [ apply merged_keys_NoDup | ].
    intros k Hk. apply merged_keys_In in Hk.
    apply in_app_iff. rewrite !dropna_In. exact Hk.
  - rewrite length_app, !dropna_length. reflexivity.
Qed.

Lemma filter_with_key {A : Type} (key : A -> option string) (k : string)
    (rows : list A) :
  filter (fun r => has_key k (key r)) (with_key key rows)
  = filter (fun r => has_key k (key r)) rows.
Proof.
  unfold with_key. induction rows as [ | r rows IH]; [ reflexivity | ].
  cbn [filter]. destruct (key r) as [k' | ] eqn:E.
  - cbn [filter]. rewrite E, IH. reflexivity.
  - cbn [has_key]. exact IH.
Qed.

Lemma sumQ_groups_with_key {A : Type} (key : A -> option string)
    (value : A -> Q) (keys : list string) (rows : list A) :
  NoDup keys ->
  (forall k, In (Some k) (map key rows) -> In k keys) ->
  sumQ (map (fun k =>
               sumQ (map value (filter (fun r => has_key k (key r)) rows)))
            keys)
  == sumQ (map value (with_key key rows)).
Proof.
  intros Hnd Hkeys.
  rewrite <- (sumQ_groups key value keys (with_key key rows) Hnd).
  - apply sumQ_map_ext. intros k _. rewrite filter_with_key. reflexivity.
  - intros r Hr. unfold with_key in Hr. apply filter_In in Hr.
    destruct Hr as [Hin Hsome].
    destruct (key r) as [k | ] eqn:E; [ | discriminate Hsome ].
    exists k. split; [ reflexivity | ].
    apply Hkeys. rewrite <- E. apply in_map, Hin.
Qed.

Lemma merged_row_Margin df_turnover df_portfolio (k : string) :
  CustomerRollup.Margin (merged_row df_turnover df_portfolio k)
  = sumQ (map TurnoverRecord.Margin
              (filter (fun r => has_key k (TurnoverRecord.Customer r))
                      df_turnover)).
Proof.
  unfold merged_row. cbn. rewrite lookup_cust_sales.
  destruct (in_dec string_dec k _) as [ | Hout]; [ reflexivity | ].
  rewrite group_keys_In in Hout. rewrite filter_absent_key by exact Hout.
  reflexivity.
Qed.

(** In exact arithmetic, each amount column of the merged table sums to
    the same column of the sheet it comes from, taken over the rows that
    have a customer: the amounts of rows without a customer are in
    [turnover_val] and [portfolio_val] but in no row of the table.  (On
    floats the group sums round, and the equalities hold up to rounding
    only.) *)
Theorem merged_column_totals (df_turnover : TurnoverFrame)
    (df_portfolio : PortfolioFrame) :
  let table := merged df_turnover df_portfolio in
  let sales := with_key TurnoverRecord.Customer df_turnover in
  let backlog := with_key PortfolioRecord.Customer df_portfolio in
  sumQ (map CustomerRollup.Turnover table)
  == sumQ (map TurnoverRecord.Turnover sales)
  /\ sumQ (map CustomerRollup.Margin table)
     == sumQ (map TurnoverRecord.Margin sales)
  /\ sumQ (map CustomerRollup.Portfolio table)
     == sumQ (map PortfolioRecord.Net_amount backlog)
  /\ sumQ (map CustomerRollup.Totale table)
     == sumQ (map TurnoverRecord.Turnover sales)
        + sumQ (map PortfolioRecord.Net_amount backlog).
Proof.
  intros table sales backlog. unfold table, sales, backlog.
  rewrite merged_rows, !map_map.
  assert (Ht : forall k,
             In (Some k) (map TurnoverRecord.Customer df_turnover) ->
             In k (merged_keys df_turnover df_portfolio))
    by (intros k Hk; apply merged_keys_In; left; exact Hk).
  assert (Hp : forall k,
             In (Some k) (map PortfolioRecord.Customer df_portfolio) ->
             In k (merged_keys df_turnover df_portfolio))
    by (intros k Hk; apply merged_keys_In; right; exact Hk).
  pose proof (merged_keys_NoDup df_turnover df_portfolio) as Hnd.
  assert (HT : sumQ (map (fun k => CustomerRollup.Turnover
                                     (merged_row df_turnover df_portfolio k))
                         (merged_keys df_turnover df_portfolio))
               == sumQ (map TurnoverRecord.Turnover
                            (with_key TurnoverRecord.Customer df_turnover))).
  { rewrite <- (sumQ_groups_with_key TurnoverRecord.Customer
                  TurnoverRecord.Turnover _ _ Hnd Ht).
    apply sumQ_map_ext. intros k _. rewrite merged_row_Turnover.
    reflexivity. }
  assert (HP : sumQ (map (fun k => CustomerRollup.Portfolio
                                     (merged_row df_turnover df_portfolio k))
                         (merged_keys df_turnover df_portfolio))
               == sumQ (map PortfolioRecord.Net_amount
                            (with_key PortfolioRecord.Customer df_portfolio))).
  { rewrite <- (sumQ_groups_with_key PortfolioRecord.Customer
                  PortfolioRecord.Net_amount _ _ Hnd Hp).
    apply sumQ_map_ext. intros k _. rewrite merged_row_Portfolio.
    reflexivity. }
  split; [ exact HT | ]. split; [ | split; [ exact HP | ] ].
  - rewrite <- (sumQ_groups_with_key TurnoverRecord.Customer
                  TurnoverRecord.Margin _ _ Hnd Ht).
    apply sumQ_map_ext. intros k _. rewrite merged_row_Margin.
    reflexivity.
  - rewrite <- HT, <- HP, <- sumQ_map_plus. reflexivity.
Qed.

(** ** The ten rows shown *)

(** The bar chart leaves no customer out when the merged table has ten
    rows or fewer: [top_10] is then the whole table, rearranged. *)
Theorem top_10_whole_table_when_small (df_turnover : TurnoverFrame)
    (df_portfolio : PortfolioFrame) (out : list CustomerRollup.t) :
  top_10 (merged df_turnover df_portfolio) out ->
  (length (merged df_turnover df_portfolio) <= 10)%nat ->
  Permutation (merged df_turnover df_portfolio) out.
Proof.
  intros (sorted & [Hperm _] & ->) Hlen.
  rewrite firstn_all2; [ exact Hperm | ].
  rewrite <- (Permutation_length Hperm). exact Hlen.
Qed.

Lemma top_10_whole_table_when_small_witness :
  Permutation
    (merged example_turnover example_portfolio)
    (firstn 10 (stable_sort_desc (merged example_turnover example_portfolio))).
Proof.
  apply (top_10_whole_table_when_small example_turnover example_portfolio).
  - apply top_10_stable_admissible.
  - vm_compute. lia.
Defined.

(** The first row of [top_10] is a best customer: no row of the merged
    table has a larger [Totale]. *)
Theorem top_10_first_is_largest (df_turnover : TurnoverFrame)
    (df_portfolio : PortfolioFrame) (out : list CustomerRollup.t)
    (first : CustomerRollup.t) (others : list CustomerRollup.t) :
  top_10 (merged df_turnover df_portfolio) out ->
  out = first :: others ->
  In first (merged df_turnover df_portfolio)
  /\ forall row,
       In row (merged df_turnover df_portfolio) ->
       CustomerRollup.Totale row <= CustomerRollup.Totale first.
Proof.
  intros (sorted & [Hperm Hsorted] & ->) Hout.
  destruct sorted as [ | head tail]; [ discriminate Hout | ].
  cbn [firstn] in Hout. injection Hout as -> _.
  apply StronglySorted_inv in Hsorted. destruct Hsorted as [_ Htail].
  split.
  - apply Permutation_in with (1 := Permutation_sym Hperm). left. reflexivity.
  - intros row Hrow. apply (Permutation_in _ Hperm) in Hrow.
    destruct Hrow as [<- | Hrow]; [ apply Qle_refl | ].
    rewrite Forall_forall in Htail. apply Htail, Hrow.
Qed.

Lemma top_10_first_is_largest_witness :
  exists first,
    CustomerRollup.Customer first = "B"
    /\ In first (merged example_turnover example_portfolio)
    /\ forall row,
         In row (merged example_turnover example_portfolio) ->
         CustomerRollup.Totale row <= CustomerRollup.Totale first.
Proof.
  exists (CustomerRollup.mk "B" (200 + 0) (20 + 0) 0 (200 + 0 + 0)).
  split; [ reflexivity | ].
  apply (top_10_first_is_largest example_turnover example_portfolio
           (firstn 10 (stable_sort_desc
                         (merged example_turnover example_portfolio)))
           _ [CustomerRollup.mk "A" (100 + 0) (10 + 0) (50 + 0)
                                (100 + 0 + (50 + 0));
              CustomerRollup.mk "C" 0 0 (30 + 0) (0 + (30 + 0))]).
  - apply top_10_stable_admissible.
  - vm_compute. reflexivity.
Defined.
